(** * TreeScape highway plantation visualizer: the submission pipeline of
    [src/index.tsx] as a shallow embedding.

    The page is a single script: three DOM event handlers sharing one module
    variable ([selectedFile]) and a handful of DOM elements.  The embedding
    keeps the script's own names.  JavaScript strings are sequences of UTF-16
    code units, DOM elements contribute exactly the properties the script
    reads or writes, and the two suspension points of the click handler (the
    file read and the remote call) are explicit nodes of a resumption tree. *)

From Stdlib Require Import List NArith ZArith Bool Lia Zify.
From Stdlib.Strings Require Import Ascii String Byte.
Import ListNotations.

Local Open Scope N_scope.
#[local] Set Warnings "-register-all".

(** ** JavaScript strings *)

Module Js.

(** A string is its sequence of UTF-16 code units. *)
Definition char16 : Type := N.
Definition jsstring : Type := list char16.

(** A literal of the script (all of them are ASCII). *)
Definition lit (s : string) : jsstring :=
  map N_of_ascii (list_ascii_of_string s).

Fixpoint eqb (a b : jsstring) : bool :=
  match a, b with
  | [], [] => true
  | x :: a', y :: b' => (x =? y) && eqb a' b'
  | _, _ => false
  end.

(** [!s] on a string: only the empty string is falsy. *)
Definition truthy (s : jsstring) : bool :=
  match s with [] => false | _ :: _ => true end.

(** ECMAScript WhiteSpace and LineTerminator code points, the ones
    [String.prototype.trim] strips. *)
Definition is_white_space (c : char16) : bool :=
  (c =? 9) || (c =? 10) || (c =? 11) || (c =? 12) || (c =? 13) ||
  (c =? 32) || (c =? 160) || (c =? 5760) ||
  ((8192 <=? c) && (c <=? 8202)) ||
  (c =? 8232) || (c =? 8233) || (c =? 8239) || (c =? 8287) ||
  (c =? 12288) || (c =? 65279).

Fixpoint trimStart (s : jsstring) : jsstring :=
  match s with
  | c :: s' => if is_white_space c then trimStart s' else s
  | [] => []
  end.

Definition trimEnd (s : jsstring) : jsstring := rev (trimStart (rev s)).

Definition trim (s : jsstring) : jsstring := trimEnd (trimStart s).

(** [s.split(sep)] for a one-unit separator: the segments between the
    occurrences of [sep]; the empty string yields one empty segment. *)
Fixpoint split (sep : char16) (s : jsstring) : list jsstring :=
  match s with
  | [] => [[]]
  | c :: s' =>
      if c =? sep then [] :: split sep s'
      else match split sep s' with
           | seg :: segs => (c :: seg) :: segs
           | [] => [[c]]
           end
  end.

Definition comma : char16 := 44.

End Js.

Import Js.

(** ** Files, DOM state and the module variable *)

(** A [File] as the script uses it: its media type and, for the platform's
    reader, its contents. *)
Record File : Type := mkFile {
  file_name : jsstring;
  file_type : jsstring;
  file_bytes : list byte
}.

(** [classList]: an ordered set of class tokens. *)
Definition DOMTokenList : Type := list jsstring.

Definition classList_contains (tok : jsstring) (l : DOMTokenList) : bool :=
  existsb (Js.eqb tok) l.

Definition classList_add (tok : jsstring) (l : DOMTokenList) : DOMTokenList :=
  if classList_contains tok l then l else l ++ [tok].

Definition classList_remove (tok : jsstring) (l : DOMTokenList) : DOMTokenList :=
  filter (fun t => negb (Js.eqb tok t)) l.

(** The properties of the page's elements that the script touches, and the
    module-level [selectedFile] ([None] is [null]). *)
Record State : Type := mkState {
  imageUpload_disabled : bool;
  imageUpload_files : option (list File);
  imagePreview_src : jsstring;
  imagePreview_style_display : jsstring;
  uploadPlaceholder_style_display : jsstring;
  promptInput_value : jsstring;
  promptInput_disabled : bool;
  generateBtn_disabled : bool;
  resultPlaceholder_style_display : jsstring;
  resultPlaceholder_textContent : jsstring;
  resultPlaceholder_style_color : jsstring;
  resultImage_src : jsstring;
  resultImage_style_display : jsstring;
  loader_classList : DOMTokenList;
  selectedFile : option File
}.

(** Assignments [element.property = v] and [selectedFile = v]. *)
Definition set_imageUpload_disabled (v : bool) (s : State) : State :=
  let 'mkState a b c d e f g h i j k l m n o := s in mkState v b c d e f g h i j k l m n o.

Definition set_imagePreview_src (v : jsstring) (s : State) : State :=
  let 'mkState a b c d e f g h i j k l m n o := s in mkState a b v d e f g h i j k l m n o.

Definition set_imagePreview_style_display (v : jsstring) (s : State) : State :=
  let 'mkState a b c d e f g h i j k l m n o := s in mkState a b c v e f g h i j k l m n o.

Definition set_uploadPlaceholder_style_display (v : jsstring) (s : State) : State :=
  let 'mkState a b c d e f g h i j k l m n o := s in mkState a b c d v f g h i j k l m n o.

Definition set_promptInput_value (v : jsstring) (s : State) : State :=
  let 'mkState a b c d e f g h i j k l m n o := s in mkState a b c d e v g h i j k l m n o.

Definition set_promptInput_disabled (v : bool) (s : State) : State :=
  let 'mkState a b c d e f g h i j k l m n o := s in mkState a b c d e f v h i j k l m n o.

Definition set_generateBtn_disabled (v : bool) (s : State) : State :=
  let 'mkState a b c d e f g h i j k l m n o := s in mkState a b c d e f g v i j k l m n o.

Definition set_resultPlaceholder_style_display (v : jsstring) (s : State) : State :=
  let 'mkState a b c d e f g h i j k l m n o := s in mkState a b c d e f g h v j k l m n o.

Definition set_resultPlaceholder_textContent (v : jsstring) (s : State) : State :=
  let 'mkState a b c d e f g h i j k l m n o := s in mkState a b c d e f g h i v k l m n o.

Definition set_resultPlaceholder_style_color (v : jsstring) (s : State) : State :=
  let 'mkState a b c d e f g h i j k l m n o := s in mkState a b c d e f g h i j v l m n o.

Definition set_resultImage_src (v : jsstring) (s : State) : State :=
  let 'mkState a b c d e f g h i j k l m n o := s in mkState a b c d e f g h i j k v m n o.

Definition set_resultImage_style_display (v : jsstring) (s : State) : State :=
  let 'mkState a b c d e f g h i j k l m n o := s in mkState a b c d e f g h i j k l v n o.

Definition set_loader_classList (v : DOMTokenList) (s : State) : State :=
  let 'mkState a b c d e f g h i j k l m n o := s in mkState a b c d e f g h i j k l m v o.

Definition set_selectedFile (v : option File) (s : State) : State :=
  let 'mkState a b c d e f g h i j k l m n o := s in mkState a b c d e f g h i j k l m n v.

Definition hidden : jsstring := lit "hidden".

(** ** Helper functions of the script *)

(** [setLoading(isLoading)], lines 56-68. *)
Definition setLoading (isLoading : bool) (s : State) : State :=
  if isLoading then
    let s := set_loader_classList (classList_remove hidden (loader_classList s)) s in
    let s := set_generateBtn_disabled true s in
    let s := set_promptInput_disabled true s in
    set_imageUpload_disabled true s
  else
    let s := set_loader_classList (classList_add hidden (loader_classList s)) s in
    let s := set_generateBtn_disabled
               (match selectedFile s with Some _ => false | None => true end) s in
    let s := set_promptInput_disabled false s in
    set_imageUpload_disabled false s.

(** [displayError(message)], lines 74-79. *)
Definition displayError (message : jsstring) (s : State) : State :=
  let s := set_resultImage_style_display (lit "none") s in
  let s := set_resultPlaceholder_style_display (lit "block") s in
  let s := set_resultPlaceholder_textContent (lit "Error: " ++ message) s in
  set_resultPlaceholder_style_color (lit "var(--error-color)") s.

(** ** Values that cross the script's boundary *)

(** The event a [FileReader] hands to its [onerror] handler. *)
Record ProgressEvent : Type := mkProgressEvent {
  event_type : jsstring;
  event_loaded : N;
  event_total : N
}.

(** What a promise can be rejected with (what [catch] can receive): an
    instance of [Error] with its [message], the reader's event object, or
    any other value (kept as its console rendering). *)
Inductive JsThrown : Type :=
| ErrorObject (message : jsstring)
| EventObject (ev : ProgressEvent)
| OtherValue (rendering : jsstring).

(** [error instanceof Error]. *)
Definition instanceof_Error (error : JsThrown) : bool :=
  match error with ErrorObject _ => true | _ => false end.

(** How a promise settles. *)
Inductive Settled (A : Type) : Type :=
| Resolved (value : A)
| Rejected (reason : JsThrown).
Arguments Resolved {A} value.
Arguments Rejected {A} reason.

(** How a [FileReader] finishes [readAsDataURL]: it fires [load] with the
    [result] string or [error] with a progress event. *)
Inductive ReadOutcome : Type :=
| ReadLoad (result : jsstring)
| ReadError (ev : ProgressEvent).

(** Parts of a request or response of the generative service.  The script
    reads [data] and [mimeType] of an [inlineData] as strings (line 137
    annotates [base64ImageBytes: string]). *)
Record Blob : Type := mkBlob { data : jsstring; mimeType : jsstring }.

Record Part : Type := mkPart {
  inlineData : option Blob;
  text : option jsstring
}.

Inductive Modality : Type := IMAGE | TEXT.

Record GenerateContentParameters : Type := mkRequest {
  model : jsstring;
  contents_parts : list Part;
  config_responseModalities : list Modality
}.

Record Content : Type := mkContent { parts : option (list Part) }.
Record Candidate : Type := mkCandidate { content : option Content }.
Record GenerateContentResponse : Type := mkResponse {
  candidates : option (list Candidate)
}.

(** ** Synchronous segments: state and call log *)

(** Calls the claims count or exclude.  The first three are calls of the
    script's own helpers and of [console.error]; the last two are the calls
    that leave the script. *)
Inductive Event : Type :=
| CallDisplayError (message : jsstring)
| CallSetLoading (isLoading : bool)
| CallConsoleError (error : JsThrown)
| CallReadAsDataURL (file : File)
| CallGenerateContent (request : GenerateContentParameters).

(** A synchronous run of script code: it reads and writes the page state and
    logs its calls. *)
Definition Sync (A : Type) : Type := State -> A * State * list Event.

Definition ret {A : Type} (a : A) : Sync A := fun s => (a, s, []).

Definition bind {A B : Type} (m : Sync A) (f : A -> Sync B) : Sync B :=
  fun s =>
    let '(a, s1, l1) := m s in
    let '(b, s2, l2) := f a s1 in
    (b, s2, l1 ++ l2).

Definition get : Sync State := fun s => (s, s, []).
Definition modify (f : State -> State) : Sync unit := fun s => (tt, f s, []).
Definition emit (e : Event) : Sync unit := fun s => (tt, s, [e]).

Declare Scope sync_scope.
Delimit Scope sync_scope with sync.
Notation "x <- m ;; k" := (bind m (fun x => k))
  (at level 61, m at next level, right associativity) : sync_scope.
Notation "m ;; k" := (bind m (fun _ => k))
  (at level 61, right associativity) : sync_scope.
Local Open Scope sync_scope.

(** A handler that has run up to an [await] (or to a pending reader
    callback) and the code that runs when the awaited operation finishes,
    on the page state of that later moment. *)
Inductive Async : Type :=
| Finished
| AwaitRead (file : File) (k : ReadOutcome -> Sync Async)
| AwaitGenerate (request : GenerateContentParameters)
                (k : Settled GenerateContentResponse -> Sync Async).

Definition Handler : Type := Sync Async.

Definition call_setLoading (isLoading : bool) : Sync unit :=
  emit (CallSetLoading isLoading) ;; modify (setLoading isLoading).

Definition call_displayError (message : jsstring) : Sync unit :=
  emit (CallDisplayError message) ;; modify (displayError message).

(** [fileToGenerativePart(file)], lines 30-50: how the returned promise
    settles once the reader has finished. *)
Definition fileToGenerativePart (file : File) (outcome : ReadOutcome)
  : Settled Part :=
  match outcome with
  | ReadLoad result =>
      match nth_error (Js.split Js.comma result) 1 with
      | Some base64Data =>
          if Js.truthy base64Data then
            Resolved {| inlineData := Some {| data := base64Data;
                                              mimeType := file_type file |};
                        text := None |}
          else Rejected (ErrorObject (lit "Failed to read file as base64."))
      | None => Rejected (ErrorObject (lit "Failed to read file as base64."))
      end
  | ReadError ev => Rejected (EventObject ev)
  end.

(** ** Event listeners *)

(** The [change] listener of the file input, lines 88-101. *)
Definition on_change : Handler :=
  s <- get ;;
  match imageUpload_files s with
  | Some (file0 :: _) =>
      modify (set_selectedFile (Some file0)) ;;
      ret (AwaitRead file0 (fun outcome =>
        match outcome with
        | ReadLoad result =>
            modify (set_imagePreview_src result) ;;
            modify (set_imagePreview_style_display (lit "block")) ;;
            modify (set_uploadPlaceholder_style_display (lit "none")) ;;
            modify (set_generateBtn_disabled false) ;;
            ret Finished
        | ReadError _ => ret Finished
        end))
  | _ => ret Finished
  end.

(** [response.candidates?.[0]?.content?.parts || []], line 135. *)
Definition response_parts (response : GenerateContentResponse) : list Part :=
  match candidates response with
  | Some (candidate :: _) =>
      match content candidate with
      | Some c => match parts c with Some ps => ps | None => [] end
      | None => []
      end
  | _ => []
  end.

(** The [for ... of] loop of lines 135-144; the result is [foundImage]. *)
Fixpoint scan_parts (ps : list Part) : Sync bool :=
  match ps with
  | [] => ret false
  | part :: rest =>
      match inlineData part with
      | Some blob =>
          modify (set_resultImage_src
                    (lit "data:" ++ mimeType blob ++ lit ";base64," ++ data blob)) ;;
          modify (set_resultImage_style_display (lit "block")) ;;
          ret true
      | None => scan_parts rest
      end
  end.

(** [error instanceof Error ? error.message : "An unknown error occurred."],
    line 152. *)
Definition errorMessage (error : JsThrown) : jsstring :=
  match error with
  | ErrorObject message => message
  | EventObject _ | OtherValue _ => lit "An unknown error occurred."
  end.

(** The [catch] block, lines 150-153. *)
Definition catch_block (error : JsThrown) : Sync unit :=
  emit (CallConsoleError error) ;;
  call_displayError (errorMessage error).

(** The [finally] block, lines 154-156. *)
Definition finally_block : Sync unit := call_setLoading false.

(** The [click] listener of the generate button, lines 107-157. *)
Definition on_click : Handler :=
  s <- get ;;
  match selectedFile s with
  | None =>
      call_displayError (lit "Please upload an image first.") ;;
      ret Finished
  | Some file =>
      let prompt := Js.trim (promptInput_value s) in
      if negb (Js.truthy prompt) then
        call_displayError (lit "Please enter a prompt.") ;;
        ret Finished
      else
        call_setLoading true ;;
        modify (set_resultPlaceholder_style_display (lit "none")) ;;
        modify (set_resultImage_style_display (lit "none")) ;;
        ret (AwaitRead file (fun read =>
          match fileToGenerativePart file read with
          | Rejected error =>
              catch_block error ;; finally_block ;; ret Finished
          | Resolved imagePart =>
              let textPart := {| inlineData := None; text := Some prompt |} in
              ret (AwaitGenerate
                     {| model := lit "gemini-2.5-flash-image-preview";
                        contents_parts := [imagePart; textPart];
                        config_responseModalities := [IMAGE; TEXT] |}
                     (fun answer =>
                        match answer with
                        | Rejected error =>
                            catch_block error ;; finally_block ;; ret Finished
                        | Resolved response =>
                            foundImage <- scan_parts (response_parts response) ;;
                            (if negb foundImage then
                               call_displayError
                                 (lit "The model did not return an image. Please try a different prompt.")
                             else ret tt) ;;
                            finally_block ;;
                            ret Finished
                        end))
          end))
  end.

(** [initializeApp()], lines 160-162. *)
Definition initializeApp : Sync unit :=
  modify (set_promptInput_value
    (lit "Show the same highway after 10 years, with the planted trees fully grown, maintaining the same positions, perspective, and lighting")).

(** ** Running a handler to completion *)

(** What the rest of the world does while a handler is suspended: how the
    awaited operations finish, and what other code does to the page state in
    the meantime. *)
Record Env : Type := mkEnv {
  read_outcome : ReadOutcome;
  generate_outcome : Settled GenerateContentResponse;
  during_read : State -> State;
  during_generate : State -> State
}.

Fixpoint resume (env : Env) (a : Async) (s : State) : State * list Event :=
  match a with
  | Finished => (s, [])
  | AwaitRead file k =>
      match k (read_outcome env) (during_read env s) with
      | (a', s', l) =>
          let (s'', l') := resume env a' s' in
          (s'', CallReadAsDataURL file :: l ++ l')
      end
  | AwaitGenerate request k =>
      match k (generate_outcome env) (during_generate env s) with
      | (a', s', l) =>
          let (s'', l') := resume env a' s' in
          (s'', CallGenerateContent request :: l ++ l')
      end
  end.

Definition run (h : Handler) (env : Env) (s : State) : State * list Event :=
  let '(a, s1, l) := h s in
  let (s2, l') := resume env a s1 in
  (s2, l ++ l').

(** ** The platform's reader *)

Module Base64.

(** Modelled from the spec: the base64 alphabet of the payload that
    section 4.1 says the encoder keeps (RFC 4648); the encoding itself is
    done by the browser's [FileReader], not by the script. *)
Definition alphabet_char (v : N) : char16 :=
  if v <? 26 then 65 + v
  else if v <? 52 then 97 + (v - 26)
  else if v <? 62 then 48 + (v - 52)
  else if v =? 62 then 43
  else 47.

Definition char_value (c : char16) : option N :=
  if (65 <=? c) && (c <=? 90) then Some (c - 65)
  else if (97 <=? c) && (c <=? 122) then Some (c - 97 + 26)
  else if (48 <=? c) && (c <=? 57) then Some (c - 48 + 52)
  else if c =? 43 then Some 62
  else if c =? 47 then Some 63
  else None.

Definition pad : char16 := 61.

(** Modelled from the spec: base64 encoding of a byte sequence, three bytes
    to four characters, the last group padded with [=]. *)
Fixpoint encode (bs : list byte) : jsstring :=
  match bs with
  | [] => []
  | [b0] =>
      let n0 := Byte.to_N b0 in
      [alphabet_char (n0 / 4); alphabet_char ((n0 mod 4) * 16); pad; pad]
  | [b0; b1] =>
      let n0 := Byte.to_N b0 in
      let n1 := Byte.to_N b1 in
      [alphabet_char (n0 / 4);
       alphabet_char ((n0 mod 4) * 16 + n1 / 16);
       alphabet_char ((n1 mod 16) * 4);
       pad]
  | b0 :: b1 :: b2 :: rest =>
      let n0 := Byte.to_N b0 in
      let n1 := Byte.to_N b1 in
      let n2 := Byte.to_N b2 in
      alphabet_char (n0 / 4)
        :: alphabet_char ((n0 mod 4) * 16 + n1 / 16)
        :: alphabet_char ((n1 mod 16) * 4 + n2 / 64)
        :: alphabet_char (n2 mod 64)
        :: encode rest
  end.

Definition byte_of (n : N) : byte :=
  match Byte.of_N (n mod 256) with Some b => b | None => x00 end.

(** Modelled from the spec: the base64 decoding that section 8 measures
    the encoder against; [None] on a string that is not base64. *)
Fixpoint decode (s : jsstring) : option (list byte) :=
  match s with
  | [] => Some []
  | c0 :: c1 :: c2 :: c3 :: rest =>
      match char_value c0, char_value c1 with
      | Some v0, Some v1 =>
          let b0 := byte_of (v0 * 4 + v1 / 16) in
          if (c2 =? pad) && (c3 =? pad) then
            match rest with [] => Some [b0] | _ :: _ => None end
          else
            match char_value c2 with
            | Some v2 =>
                let b1 := byte_of ((v1 mod 16) * 16 + v2 / 4) in
                if c3 =? pad then
                  match rest with [] => Some [b0; b1] | _ :: _ => None end
                else
                  match char_value c3, decode rest with
                  | Some v3, Some bs =>
                      Some (b0 :: b1 :: byte_of ((v2 mod 4) * 64 + v3) :: bs)
                  | _, _ => None
                  end
            | None => None
            end
      | _, _ => None
      end
  | _ => None
  end.

End Base64.

(** Modelled from the spec: the string a successful
    [FileReader.readAsDataURL(file)] leaves in [result], a data URI made of
    the file's media type and the base64 of its contents (section 4.1:
    "reads the file's full contents into memory, encodes as a data URI").
    A file without a type is labelled as a byte stream. *)
Definition readAsDataURL_result (file : File) : jsstring :=
  lit "data:"
    ++ (if Js.truthy (file_type file) then file_type file
        else lit "application/octet-stream")
    ++ lit ";base64," ++ Base64.encode (file_bytes file).

(** ** Observations on a finished run *)

Definition displayed_errors (l : list Event) : list jsstring :=
  flat_map (fun e => match e with CallDisplayError m => [m] | _ => [] end) l.

Definition loading_calls (l : list Event) : list bool :=
  flat_map (fun e => match e with CallSetLoading b => [b] | _ => [] end) l.

Definition caught_errors (l : list Event) : list JsThrown :=
  flat_map (fun e => match e with CallConsoleError t => [t] | _ => [] end) l.

Definition network_calls (l : list Event) : list GenerateContentParameters :=
  flat_map (fun e => match e with CallGenerateContent r => [r] | _ => [] end) l.

Definition read_calls (l : list Event) : list File :=
  flat_map (fun e => match e with CallReadAsDataURL f => [f] | _ => [] end) l.

(** The substring after the first occurrence of [sep] ([None] when [sep]
    does not occur): the payload segment in the words of section 4.1. *)
Fixpoint after_first (sep : char16) (s : jsstring) : option jsstring :=
  match s with
  | [] => None
  | c :: s' => if c =? sep then Some s' else after_first sep s'
  end.

(** The prefix that ends before the first occurrence of [sep] (all of [s]
    when [sep] does not occur). *)
Fixpoint up_to (sep : char16) (s : jsstring) : jsstring :=
  match s with
  | [] => []
  | c :: s' => if c =? sep then [] else c :: up_to sep s'
  end.

Definition has_comma (s : jsstring) : bool :=
  existsb (fun c => c =? Js.comma) s.

(** A six-bit value whose character decodes to it and is neither the
    padding character nor a comma. *)
Definition sextet_ok (v : N) : bool :=
  match Base64.char_value (Base64.alphabet_char v) with
  | Some v' => v' =? v
  | None => false
  end
  && negb (Base64.alphabet_char v =? Base64.pad)
  && negb (Base64.alphabet_char v =? Js.comma).

(** The part the encoder resolves with. *)
Definition image_part (base64Data : jsstring) (file : File) : Part :=
  {| inlineData := Some {| data := base64Data; mimeType := file_type file |};
     text := None |}.

Definition decode_error : JsThrown :=
  ErrorObject (lit "Failed to read file as base64.").

(** The [inlineData] of the first part that has one. *)
Fixpoint first_inlineData (ps : list Part) : option Blob :=
  match ps with
  | [] => None
  | part :: rest =>
      match inlineData part with
      | Some blob => Some blob
      | None => first_inlineData rest
      end
  end.

(** The [message] property of a rejection value: only [Error] objects carry
    one, a progress event does not. *)
Definition thrown_message (error : JsThrown) : option jsstring :=
  match error with
  | ErrorObject message => Some message
  | EventObject _ | OtherValue _ => None
  end.

(** The page as it is when the click handler first suspends. *)
Definition busy_page (s : State) : State :=
  set_resultImage_style_display (lit "none")
    (set_resultPlaceholder_style_display (lit "none") (setLoading true s)).

(** The request of lines 126-132. *)
Definition request_of (imagePart : Part) (prompt : jsstring)
  : GenerateContentParameters :=
  {| model := lit "gemini-2.5-flash-image-preview";
     contents_parts := [imagePart; {| inlineData := None; text := Some prompt |}];
     config_responseModalities := [IMAGE; TEXT] |}.

(** Is the progress indicator shown? *)
Definition loader_visible (s : State) : bool :=
  negb (classList_contains hidden (loader_classList s)).

(** Sample values used to run the handlers. *)
Definition spec_example_parts : list Part :=
  [ {| inlineData := None; text := Some (lit "desc") |};
    {| inlineData := Some {| data := lit "AAAA"; mimeType := lit "image/png" |};
       text := None |} ].

Definition response_with (ps : list Part) : GenerateContentResponse :=
  {| candidates := Some [ {| content := Some {| parts := Some ps |} |} ] |}.

Definition reader_error_event : ProgressEvent :=
  {| event_type := lit "error"; event_loaded := 0; event_total := 4 |}.

(** An environment in which nothing else touches the page. *)
Definition quiet_env (read : ReadOutcome)
    (answer : Settled GenerateContentResponse) : Env :=
  {| read_outcome := read; generate_outcome := answer;
     during_read := fun s => s; during_generate := fun s => s |}.

Definition sample_file : File :=
  {| file_name := lit "road.png"; file_type := lit "image/png";
     file_bytes := [x89; x50; x4e; x47] |}.

Definition empty_file : File :=
  {| file_name := lit "empty.png"; file_type := lit "image/png";
     file_bytes := [] |}.

Definition comma_type_file : File :=
  {| file_name := lit "hi.bin"; file_type := lit "a,b";
     file_bytes := [x68; x69] |}.

(** The page after a first selection was previewed and a second file dialog
    was cancelled: the file list is empty, the selection is still there. *)
Definition cancelled_dialog_state : State :=
  {| imageUpload_disabled := false; imageUpload_files := Some [];
     imagePreview_src := lit "data:image/png;base64,iVBORw==";
     imagePreview_style_display := lit "block";
     uploadPlaceholder_style_display := lit "none";
     promptInput_value := lit "add trees";
     promptInput_disabled := false; generateBtn_disabled := false;
     resultPlaceholder_style_display := lit "block";
     resultPlaceholder_textContent := lit "Your result will appear here";
     resultPlaceholder_style_color := [];
     resultImage_src := []; resultImage_style_display := lit "none";
     loader_classList := [lit "loader"; hidden];
     selectedFile := Some sample_file |}.

Definition sample_state : State :=
  {| imageUpload_disabled := false; imageUpload_files := Some [sample_file];
     imagePreview_src := []; imagePreview_style_display := lit "none";
     uploadPlaceholder_style_display := lit "block";
     promptInput_value := lit "  add trees ";
     promptInput_disabled := false; generateBtn_disabled := false;
     resultPlaceholder_style_display := lit "block";
     resultPlaceholder_textContent := lit "Your result will appear here";
     resultPlaceholder_style_color := [];
     resultImage_src := []; resultImage_style_display := lit "none";
     loader_classList := [lit "loader"; hidden];
     selectedFile := Some sample_file |}.

(** The page when a second selection of two files arrives after a first
    one was previewed. *)
Definition reselecting_state : State :=
  {| imageUpload_disabled := false;
     imageUpload_files := Some [empty_file; comma_type_file];
     imagePreview_src := lit "data:image/png;base64,iVBORw==";
     imagePreview_style_display := lit "block";
     uploadPlaceholder_style_display := lit "none";
     promptInput_value := lit "add trees";
     promptInput_disabled := false; generateBtn_disabled := false;
     resultPlaceholder_style_display := lit "block";
     resultPlaceholder_textContent := [];
     resultPlaceholder_style_color := [];
     resultImage_src := []; resultImage_style_display := lit "none";
     loader_classList := [hidden];
     selectedFile := Some sample_file |}.

(** What the user has put into the page: the selection, the prompt text,
    the file list and the preview of the selection. *)
Definition inputs_of (s : State)
  : option File * jsstring * option (list File) * jsstring * jsstring * jsstring :=
  (selectedFile s, promptInput_value s, imageUpload_files s,
   imagePreview_src s, imagePreview_style_display s,
   uploadPlaceholder_style_display s).

(** The text [initializeApp()] puts into the prompt input. *)
Definition default_prompt : jsstring :=
  lit "Show the same highway after 10 years, with the planted trees fully grown, maintaining the same positions, perspective, and lighting".

(** The page once [initializeApp()] has run. *)
Definition initialized (s : State) : State := snd (fst (initializeApp s)).

(** * Properties *)

(** ** Strings and class lists *)

Lemma eqb_refl (a : jsstring) : Js.eqb a a = true.
Proof.
  induction a as [|x a IH]; simpl; [reflexivity|].
  now rewrite N.eqb_refl, IH.
Qed.

Lemma eqb_eq (a b : jsstring) : Js.eqb a b = true <-> a = b.
Proof.
  split; [|intros ->; apply eqb_refl].
  revert b; induction a as [|x a IH]; intros [|y b]; simpl; try discriminate; auto.
  intros H; apply andb_true_iff in H as [Hx Hab].
  apply N.eqb_eq in Hx; subst; f_equal; auto.
Qed.

Lemma classList_contains_remove (tok : jsstring) (l : DOMTokenList) :
  classList_contains tok (classList_remove tok l) = false.
Proof.
  unfold classList_contains, classList_remove.
  induction l as [|t l IH]; simpl; [reflexivity|].
  destruct (Js.eqb tok t) eqn:E; simpl; [assumption|].
  now rewrite E.
Qed.

Lemma classList_contains_add (tok : jsstring) (l : DOMTokenList) :
  classList_contains tok (classList_add tok l) = true.
Proof.
  unfold classList_add.
  destruct (classList_contains tok l) eqn:E; [assumption|].
  unfold classList_contains; rewrite existsb_app; simpl.
  now rewrite eqb_refl, orb_true_r.
Qed.

Lemma classList_remove_twice (tok : jsstring) (l : DOMTokenList) :
  classList_remove tok (classList_remove tok l) = classList_remove tok l.
Proof.
  unfold classList_remove.
  induction l as [|t l IH]; simpl; [reflexivity|].
  destruct (Js.eqb tok t) eqn:E; simpl; [assumption|].
  now rewrite E, IH.
Qed.

Lemma classList_add_twice (tok : jsstring) (l : DOMTokenList) :
  classList_add tok (classList_add tok l) = classList_add tok l.
Proof.
  unfold classList_add at 1.
  now rewrite classList_contains_add.
Qed.

(** ** The UI state controller *)

Lemma setLoading_true_fields (s : State) :
  loader_visible (setLoading true s) = true
  /\ generateBtn_disabled (setLoading true s) = true
  /\ promptInput_disabled (setLoading true s) = true
  /\ imageUpload_disabled (setLoading true s) = true.
Proof.
  destruct s; unfold loader_visible; simpl.
  rewrite classList_contains_remove. repeat split.
Qed.

Lemma setLoading_false_fields (s : State) :
  loader_visible (setLoading false s) = false
  /\ promptInput_disabled (setLoading false s) = false
  /\ imageUpload_disabled (setLoading false s) = false
  /\ generateBtn_disabled (setLoading false s)
     = match selectedFile s with Some _ => false | None => true end.
Proof.
  destruct s; unfold loader_visible; simpl.
  rewrite classList_contains_add. repeat split.
Qed.

(** C7: [setLoading(true)] shows the loader and disables the submit button,
    the prompt input and the file input whatever the state was;
    [setLoading(false)] hides the loader, enables the prompt input and the
    file input whatever the state was, and leaves the submit button enabled
    exactly when [selectedFile] holds a file. *)
Theorem setLoading_controls (s : State) :
  (loader_visible (setLoading true s) = true
   /\ generateBtn_disabled (setLoading true s) = true
   /\ promptInput_disabled (setLoading true s) = true
   /\ imageUpload_disabled (setLoading true s) = true)
  /\
  (loader_visible (setLoading false s) = false
   /\ promptInput_disabled (setLoading false s) = false
   /\ imageUpload_disabled (setLoading false s) = false
   /\ (generateBtn_disabled (setLoading false s) = false
       <-> exists file, selectedFile s = Some file)).
Proof.
  split; [apply setLoading_true_fields|].
  destruct (setLoading_false_fields s) as (Hl & Hp & Hi & Hg).
  repeat split; try assumption; rewrite Hg.
  - destruct (selectedFile s) as [file|]; [now exists file|discriminate].
  - now intros [file ->].
Qed.

(** C9: calling [setLoading] twice in a row with the same argument leaves the
    page (loader classes and the three disabled flags included) as one call
    does; the selection is not touched by the call. *)
Theorem setLoading_idempotent (b : bool) (s : State) :
  setLoading b (setLoading b s) = setLoading b s
  /\ selectedFile (setLoading b s) = selectedFile s.
Proof.
  destruct s, b; simpl; split; try reflexivity.
  - now rewrite classList_remove_twice.
  - now rewrite classList_add_twice.
Qed.

(** ** The file input *)

(** C10: a [change] event with no file list or an empty one changes nothing:
    the handler ends at once, starts no read, and the page state (the
    selected file, the preview, the submit button) is the one it found. *)
Theorem on_change_without_files (s : State) (env : Env) :
  imageUpload_files s = None \/ imageUpload_files s = Some [] ->
  on_change s = (Finished, s, []) /\ run on_change env s = (s, []).
Proof.
  intros H. unfold run, on_change, bind, get.
  destruct H as [H|H]; rewrite H; simpl; split; reflexivity.
Qed.

Lemma on_change_without_files_witness :
  on_change cancelled_dialog_state = (Finished, cancelled_dialog_state, []).
Proof.
  refine (proj1 (on_change_without_files cancelled_dialog_state
                   (quiet_env (ReadLoad []) (Rejected (OtherValue []))) _)).
  right; reflexivity.
Defined.

(** ** The click handler: validation *)

Arguments lit : simpl never.
Arguments setLoading : simpl never.
Arguments displayError : simpl never.

(** C1: a click with no selected file shows "Please upload an image first.";
    a click with a file but a prompt that is empty once trimmed shows
    "Please enter a prompt.": the placeholder of the result area is
    displayed with the text "Error: " followed by the message, in the error
    colour, and the result image is hidden.  Either way the handler ends
    right there: its only call is the one to [displayError], so the loader
    is not shown, the controls are as they were, no read is started and no
    request is built or sent.  The file test comes first: with neither file
    nor prompt the upload message is the one shown. *)
Theorem on_click_validation (s : State) (env : Env) :
  selectedFile s = None \/ Js.trim (promptInput_value s) = [] ->
  let message :=
    match selectedFile s with
    | None => lit "Please upload an image first."
    | Some _ => lit "Please enter a prompt."
    end in
  on_click s = (Finished, displayError message s, [CallDisplayError message])
  /\ run on_click env s = (displayError message s, [CallDisplayError message])
  /\ loading_calls (snd (run on_click env s)) = []
  /\ read_calls (snd (run on_click env s)) = []
  /\ network_calls (snd (run on_click env s)) = []
  /\ loader_visible (fst (run on_click env s)) = loader_visible s
  /\ resultPlaceholder_textContent (fst (run on_click env s))
     = lit "Error: " ++ message
  /\ resultPlaceholder_style_display (fst (run on_click env s)) = lit "block"
  /\ resultPlaceholder_style_color (fst (run on_click env s))
     = lit "var(--error-color)"
  /\ resultImage_style_display (fst (run on_click env s)) = lit "none"
  /\ generateBtn_disabled (fst (run on_click env s)) = generateBtn_disabled s
  /\ promptInput_disabled (fst (run on_click env s)) = promptInput_disabled s
  /\ imageUpload_disabled (fst (run on_click env s)) = imageUpload_disabled s.
Proof.
  intros H message.
  assert (E : on_click s = (Finished, displayError message s, [CallDisplayError message])).
  { unfold on_click, bind, get, message.
    destruct (selectedFile s) as [file|] eqn:Hsel; [|reflexivity].
    destruct H as [H|H]; [discriminate|].
    rewrite H; reflexivity. }
  assert (R : run on_click env s = (displayError message s, [CallDisplayError message])).
  { unfold run; rewrite E; reflexivity. }
  rewrite R; simpl.
  split; [assumption|]. split; [reflexivity|].
  generalize message. intros m. destruct s; repeat split.
Qed.

Lemma on_click_validation_witness :
  resultPlaceholder_textContent
    (fst (run on_click (mkEnv (ReadLoad []) (Rejected (OtherValue [])) id id)
              (set_promptInput_value (lit "  ") sample_state)))
  = lit "Error: Please enter a prompt."
  /\ snd (run on_click (mkEnv (ReadLoad []) (Rejected (OtherValue [])) id id)
               (set_promptInput_value (lit "  ") sample_state))
     = [CallDisplayError (lit "Please enter a prompt.")].
Proof.
  pose proof (on_click_validation
                (set_promptInput_value (lit "  ") sample_state)
                (mkEnv (ReadLoad []) (Rejected (OtherValue [])) id id)
                (or_intror eq_refl)) as H.
  cbv zeta in H.
  destruct H as (_ & Hrun & _ & _ & _ & _ & Htext & _).
  split; [exact Htext|].
  rewrite Hrun. reflexivity.
Defined.

(** ** The click handler: a submission that passes validation *)

Lemma scan_parts_first (ps : list Part) (s : State) :
  scan_parts ps s =
    match first_inlineData ps with
    | Some blob =>
        (true,
         set_resultImage_style_display (lit "block")
           (set_resultImage_src
              (lit "data:" ++ mimeType blob ++ lit ";base64," ++ data blob) s),
         [])
    | None => (false, s, [])
    end.
Proof.
  induction ps as [|part rest IH]; simpl; [reflexivity|].
  destruct (inlineData part) as [blob|]; [reflexivity|apply IH].
Qed.

(** The whole run of a valid submission, outcome by outcome. *)
Lemma run_on_click_valid (s : State) (env : Env) (file : File) :
  selectedFile s = Some file ->
  Js.truthy (Js.trim (promptInput_value s)) = true ->
  run on_click env s =
    let s1 := during_read env (busy_page s) in
    match fileToGenerativePart file (read_outcome env) with
    | Rejected error =>
        (setLoading false (displayError (errorMessage error) s1),
         [CallSetLoading true; CallReadAsDataURL file; CallConsoleError error;
          CallDisplayError (errorMessage error); CallSetLoading false])
    | Resolved imagePart =>
        let request := request_of imagePart (Js.trim (promptInput_value s)) in
        let s2 := during_generate env s1 in
        match generate_outcome env with
        | Rejected error =>
            (setLoading false (displayError (errorMessage error) s2),
             [CallSetLoading true; CallReadAsDataURL file;
              CallGenerateContent request; CallConsoleError error;
              CallDisplayError (errorMessage error); CallSetLoading false])
        | Resolved response =>
            match first_inlineData (response_parts response) with
            | Some blob =>
                (setLoading false
                   (set_resultImage_style_display (lit "block")
                      (set_resultImage_src
                         (lit "data:" ++ mimeType blob ++ lit ";base64," ++ data blob)
                         s2)),
                 [CallSetLoading true; CallReadAsDataURL file;
                  CallGenerateContent request; CallSetLoading false])
            | None =>
                (setLoading false
                   (displayError
                      (lit "The model did not return an image. Please try a different prompt.")
                      s2),
                 [CallSetLoading true; CallReadAsDataURL file;
                  CallGenerateContent request;
                  CallDisplayError
                    (lit "The model did not return an image. Please try a different prompt.");
                  CallSetLoading false])
            end
        end
    end.
Proof.
  intros Hsel Hprompt.
  unfold run, on_click, bind, get. rewrite Hsel, Hprompt. simpl.
  destruct (fileToGenerativePart file (read_outcome env)) as [imagePart|error];
    simpl; [|reflexivity].
  destruct (generate_outcome env) as [response|error]; simpl; [|reflexivity].
  rewrite scan_parts_first.
  destruct (first_inlineData (response_parts response)) as [blob|]; reflexivity.
Qed.

Lemma setLoading_false_loader (s : State) :
  loader_visible (setLoading false s) = false.
Proof. apply (setLoading_false_fields s). Qed.

Lemma setLoading_keeps_result (b : bool) (s : State) :
  resultPlaceholder_textContent (setLoading b s) = resultPlaceholder_textContent s
  /\ resultImage_src (setLoading b s) = resultImage_src s
  /\ resultImage_style_display (setLoading b s) = resultImage_style_display s
  /\ resultPlaceholder_style_display (setLoading b s) = resultPlaceholder_style_display s.
Proof. destruct s, b; repeat split. Qed.

Lemma displayError_text (message : jsstring) (s : State) :
  resultPlaceholder_textContent (displayError message s) = lit "Error: " ++ message
  /\ resultPlaceholder_style_display (displayError message s) = lit "block"
  /\ resultImage_style_display (displayError message s) = lit "none".
Proof. destruct s; repeat split. Qed.

Lemma shown_after_finally (message : jsstring) (s : State) :
  resultPlaceholder_textContent (setLoading false (displayError message s))
  = lit "Error: " ++ message.
Proof.
  destruct (setLoading_keeps_result false (displayError message s)) as [-> _].
  apply displayError_text.
Qed.

(** C4: a submission that passes validation calls [setLoading(true)] once, as
    its first call and before it suspends for the first time, and
    [setLoading(false)] once, as its last call, however the read and the
    remote call end (image shown, no image in the response, encoder
    rejection, remote call rejection); the loader is shown while the
    handler is suspended and hidden when it has finished. *)
Theorem busy_entered_and_cleared_once (s : State) (env : Env) (file : File) :
  selectedFile s = Some file ->
  Js.truthy (Js.trim (promptInput_value s)) = true ->
  (exists k, on_click s = (AwaitRead file k, busy_page s, [CallSetLoading true]))
  /\ loader_visible (busy_page s) = true
  /\ loading_calls (snd (run on_click env s)) = [true; false]
  /\ (exists l, snd (run on_click env s)
                = CallSetLoading true :: l ++ [CallSetLoading false])
  /\ loader_visible (fst (run on_click env s)) = false.
Proof.
  intros Hsel Hprompt. split; [|split].
  - unfold on_click, bind, get. rewrite Hsel, Hprompt. simpl. eexists; reflexivity.
  - unfold busy_page. destruct (setLoading_true_fields s) as [Hv _].
    revert Hv. unfold loader_visible. destruct (setLoading true s); simpl; auto.
  - rewrite (run_on_click_valid s env file Hsel Hprompt). cbv zeta.
    destruct (fileToGenerativePart file (read_outcome env)) as [imagePart|error].
    + destruct (generate_outcome env) as [response|error].
      * destruct (first_inlineData (response_parts response)) as [blob|];
          cbn [fst snd]; (split; [reflexivity|split; [|apply setLoading_false_loader]]).
        -- now exists [CallReadAsDataURL file;
                       CallGenerateContent
                         (request_of imagePart (Js.trim (promptInput_value s)))].
        -- now eexists [_; _; _].
      * cbn [fst snd]; split; [reflexivity|split; [|apply setLoading_false_loader]].
        now eexists [_; _; _; _].
    + cbn [fst snd]; split; [reflexivity|split; [|apply setLoading_false_loader]].
      now eexists [_; _; _].
Qed.

Lemma busy_entered_and_cleared_once_witness :
  loading_calls
    (snd (run on_click
            (quiet_env (ReadLoad (readAsDataURL_result sample_file))
                       (Rejected (ErrorObject (lit "Failed to fetch"))))
            sample_state))
  = [true; false].
Proof.
  exact (proj1 (proj2 (proj2
    (busy_entered_and_cleared_once sample_state
       (quiet_env (ReadLoad (readAsDataURL_result sample_file))
                  (Rejected (ErrorObject (lit "Failed to fetch"))))
       sample_file eq_refl eq_refl)))).
Defined.

(** ** The click handler: failures *)

(** C6: whatever a valid submission throws (the encoder's rejection or the
    remote call's) reaches [catch] once and [displayError] is called once:
    with the value's own [message] when the value is an [Error], with
    "An unknown error occurred." when it is not. *)
Theorem thrown_value_shown_once
    (s : State) (env : Env) (file : File) (error : JsThrown) :
  selectedFile s = Some file ->
  Js.truthy (Js.trim (promptInput_value s)) = true ->
  fileToGenerativePart file (read_outcome env) = Rejected error
  \/ ((exists imagePart,
         fileToGenerativePart file (read_outcome env) = Resolved imagePart)
      /\ generate_outcome env = Rejected error) ->
  caught_errors (snd (run on_click env s)) = [error]
  /\ exists shown,
       displayed_errors (snd (run on_click env s)) = [shown]
       /\ resultPlaceholder_textContent (fst (run on_click env s))
          = lit "Error: " ++ shown
       /\ (forall message, error = ErrorObject message -> shown = message)
       /\ (instanceof_Error error = false ->
           shown = lit "An unknown error occurred.").
Proof.
  intros Hsel Hprompt Hthrow.
  rewrite (run_on_click_valid s env file Hsel Hprompt). cbv zeta.
  assert (Hmsg : (forall message, error = ErrorObject message ->
                                  errorMessage error = message)
                 /\ (instanceof_Error error = false ->
                     errorMessage error = lit "An unknown error occurred.")).
  { split.
    - intros message ->; reflexivity.
    - destruct error; simpl; [discriminate|reflexivity|reflexivity]. }
  destruct Hthrow as [Hread|[[imagePart Hread] Hgen]]; rewrite Hread;
    [|rewrite Hgen]; cbn [fst snd]; (split; [reflexivity|]);
    exists (errorMessage error);
    (split; [reflexivity|split; [apply shown_after_finally|exact Hmsg]]).
Qed.

Lemma thrown_value_shown_once_witness :
  displayed_errors
    (snd (run on_click
            (quiet_env (ReadLoad (readAsDataURL_result sample_file))
                       (Rejected (OtherValue (lit "timeout"))))
            sample_state))
  = [lit "An unknown error occurred."].
Proof.
  destruct (thrown_value_shown_once sample_state
              (quiet_env (ReadLoad (readAsDataURL_result sample_file))
                         (Rejected (OtherValue (lit "timeout"))))
              sample_file (OtherValue (lit "timeout")) eq_refl eq_refl
              (or_intror (conj (ex_intro _ _ eq_refl) eq_refl)))
    as [_ [shown [Hshown [_ [_ Hgeneric]]]]].
  rewrite Hshown, (Hgeneric eq_refl). reflexivity.
Defined.

(** C5, as amended: when the encoder rejects, the submission ends in failure
    without any request.  On the decode failure the message shown is the
    encoder's own, "Failed to read file as base64.".  On a read error the
    encoder rejects with the reader's event, which is no [Error] and has no
    message, and the message shown is "An unknown error occurred.". *)
Theorem encoder_rejection_shown
    (s : State) (env : Env) (file : File) (reason : JsThrown) :
  selectedFile s = Some file ->
  Js.truthy (Js.trim (promptInput_value s)) = true ->
  fileToGenerativePart file (read_outcome env) = Rejected reason ->
  let shown :=
    match read_outcome env with
    | ReadLoad _ => lit "Failed to read file as base64."
    | ReadError _ => lit "An unknown error occurred."
    end in
  displayed_errors (snd (run on_click env s)) = [shown]
  /\ resultPlaceholder_textContent (fst (run on_click env s))
     = lit "Error: " ++ shown
  /\ network_calls (snd (run on_click env s)) = []
  /\ match read_outcome env with
     | ReadLoad _ => thrown_message reason = Some shown
     | ReadError ev => reason = EventObject ev /\ thrown_message reason = None
     end.
Proof.
  intros Hsel Hprompt Hrej shown.
  rewrite (run_on_click_valid s env file Hsel Hprompt). cbv zeta.
  rewrite Hrej. cbn [fst snd].
  assert (Hshown : errorMessage reason = shown
                   /\ match read_outcome env with
                      | ReadLoad _ => thrown_message reason = Some shown
                      | ReadError ev =>
                          reason = EventObject ev /\ thrown_message reason = None
                      end).
  { revert Hrej. unfold shown, fileToGenerativePart.
    destruct (read_outcome env) as [result|ev].
    - destruct (nth_error (Js.split Js.comma result) 1) as [base64Data|];
        [destruct (Js.truthy base64Data)|]; intros H; inversion H; split; reflexivity.
    - intros H; inversion H; repeat split. }
  destruct Hshown as [-> Hkind].
  repeat split; [apply shown_after_finally|exact Hkind].
Qed.

Lemma encoder_rejection_shown_witness :
  displayed_errors
    (snd (run on_click
            (quiet_env (ReadLoad (lit "data:"))
                       (Resolved (response_with spec_example_parts)))
            sample_state))
  = [lit "Failed to read file as base64."].
Proof.
  exact (proj1 (encoder_rejection_shown sample_state
                  (quiet_env (ReadLoad (lit "data:"))
                             (Resolved (response_with spec_example_parts)))
                  sample_file _ eq_refl eq_refl eq_refl)).
Defined.

(** C5, as stated, fails on the read-error branch: the encoder's rejection
    value there is the reader's event, it carries no message, and what is
    shown is the handler's generic text. *)
Lemma encoder_read_error_counterexample :
  fileToGenerativePart sample_file (ReadError reader_error_event)
  = Rejected (EventObject reader_error_event)
  /\ thrown_message (EventObject reader_error_event) = None
  /\ displayed_errors
       (snd (run on_click
               (quiet_env (ReadError reader_error_event) (Rejected (OtherValue [])))
               sample_state))
     = [lit "An unknown error occurred."]
  /\ ~ (forall (s : State) (env : Env) (file : File) (reason : JsThrown),
          selectedFile s = Some file ->
          Js.truthy (Js.trim (promptInput_value s)) = true ->
          fileToGenerativePart file (read_outcome env) = Rejected reason ->
          exists message,
            thrown_message reason = Some message
            /\ displayed_errors (snd (run on_click env s)) = [message]).
Proof.
  repeat split.
  intros claim.
  destruct (claim sample_state
              (quiet_env (ReadError reader_error_event) (Rejected (OtherValue [])))
              sample_file (EventObject reader_error_event)
              eq_refl eq_refl eq_refl) as [message [Hmessage _]].
  discriminate Hmessage.
Qed.

(** ** The click handler: the response scan *)

Lemma first_inlineData_split (pre post : list Part) (part : Part) (blob : Blob) :
  Forall (fun p => inlineData p = None) pre ->
  inlineData part = Some blob ->
  first_inlineData (pre ++ part :: post) = Some blob.
Proof.
  intros Hpre Hpart. induction Hpre as [|p pre Hp _ IH]; simpl.
  - now rewrite Hpart.
  - now rewrite Hp.
Qed.

Lemma first_inlineData_none (ps : list Part) :
  Forall (fun p => inlineData p = None) ps -> first_inlineData ps = None.
Proof.
  induction 1 as [|p ps Hp _ IH]; simpl; [reflexivity|now rewrite Hp].
Qed.

(** C2: once a response has arrived, the first part with [inlineData], in
    the order of the parts, gives the result image its source
    ["data:" + mimeType + ";base64," + data]; the parts after it play no
    role.  A response none of whose parts has [inlineData] ends in
    [displayError] with the "did not return an image" message, and [catch]
    is not entered.  For the parts
    [{text: "desc"}, {inlineData: {data: "AAAA", mimeType: "image/png"}}]
    the source is ["data:image/png;base64,AAAA"]. *)
Theorem first_inline_part_rendered :
  (forall (s : State) (env : Env) (file : File) (imagePart : Part)
          (response : GenerateContentResponse),
      selectedFile s = Some file ->
      Js.truthy (Js.trim (promptInput_value s)) = true ->
      fileToGenerativePart file (read_outcome env) = Resolved imagePart ->
      generate_outcome env = Resolved response ->
      (forall pre part blob post,
          response_parts response = pre ++ part :: post ->
          Forall (fun p => inlineData p = None) pre ->
          inlineData part = Some blob ->
          resultImage_src (fst (run on_click env s))
          = lit "data:" ++ mimeType blob ++ lit ";base64," ++ data blob
          /\ resultImage_style_display (fst (run on_click env s)) = lit "block"
          /\ displayed_errors (snd (run on_click env s)) = []
          /\ caught_errors (snd (run on_click env s)) = [])
      /\ (Forall (fun p => inlineData p = None) (response_parts response) ->
          displayed_errors (snd (run on_click env s))
          = [lit "The model did not return an image. Please try a different prompt."]
          /\ resultPlaceholder_textContent (fst (run on_click env s))
             = lit "Error: "
                 ++ lit "The model did not return an image. Please try a different prompt."
          /\ caught_errors (snd (run on_click env s)) = []))
  /\ resultImage_src
       (fst (run on_click
               (quiet_env (ReadLoad (readAsDataURL_result sample_file))
                          (Resolved (response_with spec_example_parts)))
               sample_state))
     = lit "data:image/png;base64,AAAA".
Proof.
  split; [|reflexivity].
  intros s env file imagePart response Hsel Hprompt Hread Hgen.
  rewrite (run_on_click_valid s env file Hsel Hprompt). cbv zeta.
  rewrite Hread, Hgen. split.
  - intros pre part blob post Hparts Hpre Hpart.
    rewrite Hparts, (first_inlineData_split pre post part blob Hpre Hpart).
    cbn [fst snd].
    destruct (setLoading_keeps_result false
                (set_resultImage_style_display (lit "block")
                   (set_resultImage_src
                      (lit "data:" ++ mimeType blob ++ lit ";base64," ++ data blob)
                      (during_generate env (during_read env (busy_page s))))))
      as (_ & -> & -> & _).
    destruct (during_generate env (during_read env (busy_page s))).
    repeat split.
  - intros Hnone. rewrite (first_inlineData_none _ Hnone). cbn [fst snd].
    repeat split. apply shown_after_finally.
Qed.

Lemma first_inline_part_rendered_witness :
  resultImage_src
    (fst (run on_click
            (quiet_env
               (ReadLoad (readAsDataURL_result sample_file))
               (Resolved (response_with
                  (spec_example_parts
                     ++ [ {| inlineData := Some {| data := lit "BBBB";
                                                   mimeType := lit "image/jpeg" |};
                             text := None |} ]))))
            sample_state))
  = lit "data:image/png;base64,AAAA".
Proof.
  refine (proj1 (proj1 (proj1 first_inline_part_rendered
            sample_state
            (quiet_env
               (ReadLoad (readAsDataURL_result sample_file))
               (Resolved (response_with
                  (spec_example_parts
                     ++ [ {| inlineData := Some {| data := lit "BBBB";
                                                   mimeType := lit "image/jpeg" |};
                             text := None |} ]))))
            sample_file _ _ eq_refl eq_refl eq_refl eq_refl)
            [ {| inlineData := None; text := Some (lit "desc") |} ]
            {| inlineData := Some {| data := lit "AAAA"; mimeType := lit "image/png" |};
               text := None |}
            {| data := lit "AAAA"; mimeType := lit "image/png" |}
            [ {| inlineData := Some {| data := lit "BBBB";
                                       mimeType := lit "image/jpeg" |};
                 text := None |} ]
            eq_refl _ eq_refl)).
  repeat constructor.
Defined.

(** ** The encoder *)

Lemma split_head_tail (sep : char16) (s : jsstring) :
  Js.split sep s
  = up_to sep s :: match after_first sep s with
                   | Some tail => Js.split sep tail
                   | None => []
                   end.
Proof.
  induction s as [|c s IH]; simpl; [reflexivity|].
  destruct (c =? sep); [reflexivity|].
  now rewrite IH.
Qed.

Lemma split_second (sep : char16) (s : jsstring) :
  nth_error (Js.split sep s) 1 = option_map (up_to sep) (after_first sep s).
Proof.
  rewrite split_head_tail. simpl.
  destruct (after_first sep s) as [tail|]; [|reflexivity].
  now rewrite split_head_tail.
Qed.

Lemma up_to_absent (s : jsstring) : has_comma s = false -> up_to Js.comma s = s.
Proof.
  unfold has_comma. induction s as [|c s IH]; cbn [existsb up_to]; [reflexivity|].
  destruct (c =? Js.comma); [discriminate|].
  intros H. now rewrite IH.
Qed.

Lemma after_first_app (header payload : jsstring) :
  has_comma header = false ->
  after_first Js.comma (header ++ Js.comma :: payload) = Some payload.
Proof.
  unfold has_comma.
  induction header as [|c header IH]; cbn [existsb after_first app].
  - now rewrite N.eqb_refl.
  - destruct (c =? Js.comma); [discriminate|exact IH].
Qed.

(** X13: the promise of [fileToGenerativePart] is settled by the reader's
    outcome as [split(',')[1]] has it.  After a load, the data string is the
    segment of the read result between its first comma and the next one (or
    the end), and the media type is the file's; when the result has no
    comma or that segment is empty, the promise is rejected with the decode
    error.  When nothing after the first comma is a comma, the segment is
    the whole substring after the first comma. *)
Theorem fileToGenerativePart_segment (file : File) (result : jsstring) :
  fileToGenerativePart file (ReadLoad result)
  = match after_first Js.comma result with
    | Some tail =>
        if Js.truthy (up_to Js.comma tail)
        then Resolved (image_part (up_to Js.comma tail) file)
        else Rejected decode_error
    | None => Rejected decode_error
    end
  /\ (forall payload,
        after_first Js.comma result = Some payload ->
        has_comma payload = false ->
        fileToGenerativePart file (ReadLoad result)
        = if Js.truthy payload then Resolved (image_part payload file)
          else Rejected decode_error).
Proof.
  assert (E : fileToGenerativePart file (ReadLoad result)
              = match after_first Js.comma result with
                | Some tail =>
                    if Js.truthy (up_to Js.comma tail)
                    then Resolved (image_part (up_to Js.comma tail) file)
                    else Rejected decode_error
                | None => Rejected decode_error
                end).
  { unfold fileToGenerativePart. rewrite split_second.
    destruct (after_first Js.comma result) as [tail|]; reflexivity. }
  split; [exact E|].
  intros payload Hpayload Hcomma.
  now rewrite E, Hpayload, (up_to_absent payload Hcomma).
Qed.

Lemma fileToGenerativePart_segment_witness :
  fileToGenerativePart sample_file (ReadLoad (readAsDataURL_result sample_file))
  = Resolved (image_part (lit "iVBORw==") sample_file).
Proof.
  exact (proj2 (fileToGenerativePart_segment sample_file
                  (readAsDataURL_result sample_file))
               (lit "iVBORw==") eq_refl eq_refl).
Defined.

(** ** Base64 and the reader's data URI *)

Lemma sextet_cases (v : N) : v < 64 -> In v (map N.of_nat (seq 0 64)).
Proof.
  intros Hv. apply in_map_iff. exists (N.to_nat v). split; [lia|].
  apply in_seq. lia.
Qed.

Lemma sextet_facts (v : N) :
  v < 64 ->
  Base64.char_value (Base64.alphabet_char v) = Some v
  /\ (Base64.alphabet_char v =? Base64.pad) = false
  /\ (Base64.alphabet_char v =? Js.comma) = false.
Proof.
  intros Hv.
  assert (Hall : forallb sextet_ok (map N.of_nat (seq 0 64)) = true)
    by (vm_compute; reflexivity).
  rewrite forallb_forall in Hall.
  specialize (Hall v (sextet_cases v Hv)). unfold sextet_ok in Hall.
  apply andb_true_iff in Hall as [Hall Hcomma].
  apply andb_true_iff in Hall as [Hvalue Hpad].
  apply negb_true_iff in Hcomma, Hpad.
  destruct (Base64.char_value (Base64.alphabet_char v)) as [v'|]; [|discriminate].
  apply N.eqb_eq in Hvalue. subst v'. auto.
Qed.

Lemma byte_of_to_N (b : byte) (n : N) : n = Byte.to_N b -> Base64.byte_of n = b.
Proof.
  intros ->. unfold Base64.byte_of.
  pose proof (Byte.to_N_bounded b) as Hb.
  rewrite N.mod_small by lia.
  now rewrite Byte.of_to_N.
Qed.

(** Division and remainder by constants, for [lia]. *)
Ltac Zify.zify_post_hook ::= Z.to_euclidean_division_equations.

Ltac sextet v :=
  let H := fresh "Hsextet" in
  assert (H : v < 64) by lia;
  let Hvalue := fresh "Hvalue" in
  let Hpad := fresh "Hpad" in
  destruct (sextet_facts v H) as (Hvalue & Hpad & _);
  rewrite Hvalue; rewrite ?Hpad; clear H Hvalue Hpad.

Lemma decode_encode_aux (n : nat) (bs : list byte) :
  (List.length bs <= n)%nat -> Base64.decode (Base64.encode bs) = Some bs.
Proof.
  revert bs. induction n as [|n IH]; intros bs Hlen.
  - destruct bs; [reflexivity|simpl in Hlen; lia].
  - destruct bs as [|b0 [|b1 [|b2 rest]]]; [reflexivity| | |].
    + pose proof (Byte.to_N_bounded b0) as H0.
      cbn [Base64.encode Base64.decode].
      sextet (Byte.to_N b0 / 4). sextet (Byte.to_N b0 mod 4 * 16).
      rewrite !N.eqb_refl. cbn [andb].
      f_equal. f_equal. apply byte_of_to_N. lia.
    + pose proof (Byte.to_N_bounded b0) as H0.
      pose proof (Byte.to_N_bounded b1) as H1.
      cbn [Base64.encode Base64.decode].
      sextet (Byte.to_N b0 / 4).
      sextet (Byte.to_N b0 mod 4 * 16 + Byte.to_N b1 / 16).
      sextet (Byte.to_N b1 mod 16 * 4).
      rewrite !N.eqb_refl. cbn [andb].
      f_equal. f_equal; [|f_equal]; apply byte_of_to_N; lia.
    + pose proof (Byte.to_N_bounded b0) as H0.
      pose proof (Byte.to_N_bounded b1) as H1.
      pose proof (Byte.to_N_bounded b2) as H2.
      cbn [Base64.encode Base64.decode].
      sextet (Byte.to_N b0 / 4).
      sextet (Byte.to_N b0 mod 4 * 16 + Byte.to_N b1 / 16).
      sextet (Byte.to_N b1 mod 16 * 4 + Byte.to_N b2 / 64).
      sextet (Byte.to_N b2 mod 64).
      cbn [andb].
      rewrite IH by (simpl in Hlen; lia).
      f_equal. f_equal; [|f_equal; [|f_equal]]; apply byte_of_to_N; lia.
Qed.

Lemma decode_encode (bs : list byte) :
  Base64.decode (Base64.encode bs) = Some bs.
Proof. apply (decode_encode_aux (List.length bs)); lia. Qed.

Lemma encode_without_comma_aux (n : nat) (bs : list byte) :
  (List.length bs <= n)%nat -> has_comma (Base64.encode bs) = false.
Proof.
  unfold has_comma.
  revert bs. induction n as [|n IH]; intros bs Hlen.
  - destruct bs; [reflexivity|simpl in Hlen; lia].
  - destruct bs as [|b0 [|b1 [|b2 rest]]]; [reflexivity| | |];
      cbn [Base64.encode existsb];
      repeat match goal with
             | |- context [Base64.alphabet_char ?v =? Js.comma] =>
                 let H := fresh in
                 assert (H : v < 64)
                   by (pose proof (Byte.to_N_bounded b0);
                       try pose proof (Byte.to_N_bounded b1);
                       try pose proof (Byte.to_N_bounded b2); lia);
                 destruct (sextet_facts v H) as (_ & _ & ->); clear H
             end;
      cbn [orb]; [reflexivity|reflexivity|].
    apply IH. simpl in Hlen. lia.
Qed.

Lemma encode_without_comma (bs : list byte) :
  has_comma (Base64.encode bs) = false.
Proof. apply (encode_without_comma_aux (List.length bs)); lia. Qed.

Lemma encode_truthy (bs : list byte) :
  bs <> [] -> Js.truthy (Base64.encode bs) = true.
Proof.
  destruct bs as [|b0 [|b1 [|b2 rest]]]; [congruence| | |]; reflexivity.
Qed.

Lemma has_comma_app (a b : jsstring) :
  has_comma (a ++ b) = has_comma a || has_comma b.
Proof. apply existsb_app. Qed.

Lemma readAsDataURL_result_payload (file : File) :
  has_comma (file_type file) = false ->
  after_first Js.comma (readAsDataURL_result file)
  = Some (Base64.encode (file_bytes file)).
Proof.
  intros Htype. unfold readAsDataURL_result.
  change (lit ";base64,") with (lit ";base64" ++ [Js.comma]).
  rewrite <- app_assoc, !app_assoc, <- app_assoc.
  apply after_first_app.
  rewrite !has_comma_app.
  destruct (Js.truthy (file_type file)); [rewrite Htype|]; reflexivity.
Qed.

(** C3: the claim holds on the data URI of every file whose media type has
    no comma, and the code misses it on a file whose media type has one.
    For the two bytes "hi" and the type "a,b" the reader delivers
    "data:a,b;base64,aGk="; the substring after the first comma is
    "b;base64,aGk=", and the encoder resolves with "b;base64", the segment
    that [split(',')[1]] cuts at the second comma. *)
Theorem fileToGenerativePart_comma_in_type :
  (forall file : File,
      has_comma (file_type file) = false ->
      after_first Js.comma (readAsDataURL_result file)
      = Some (Base64.encode (file_bytes file))
      /\ fileToGenerativePart file (ReadLoad (readAsDataURL_result file))
         = if Js.truthy (Base64.encode (file_bytes file))
           then Resolved (image_part (Base64.encode (file_bytes file)) file)
           else Rejected decode_error)
  /\ readAsDataURL_result comma_type_file = lit "data:a,b;base64,aGk="
  /\ after_first Js.comma (readAsDataURL_result comma_type_file)
     = Some (lit "b;base64,aGk=")
  /\ fileToGenerativePart comma_type_file
       (ReadLoad (readAsDataURL_result comma_type_file))
     = Resolved (image_part (lit "b;base64") comma_type_file).
Proof.
  split; [|repeat split].
  intros file Htype.
  split; [apply (readAsDataURL_result_payload file Htype)|].
  unfold fileToGenerativePart.
  rewrite split_second, (readAsDataURL_result_payload file Htype).
  cbn [option_map].
  now rewrite (up_to_absent _ (encode_without_comma (file_bytes file))).
Qed.

Lemma fileToGenerativePart_comma_in_type_witness :
  fileToGenerativePart sample_file (ReadLoad (readAsDataURL_result sample_file))
  = Resolved (image_part (lit "iVBORw==") sample_file).
Proof.
  exact (proj2 (proj1 fileToGenerativePart_comma_in_type sample_file eq_refl)).
Defined.

(** C8, as amended: for a file whose media type has no comma, once the read
    has completed: if the file has at least one byte, the encoder resolves
    with a base64 string that decodes back to exactly the file's bytes; if
    the file is empty, the encoder resolves with nothing and rejects with
    the decode error. *)
Theorem encoder_round_trip (file : File) :
  has_comma (file_type file) = false ->
  (file_bytes file <> [] ->
   exists payload,
     fileToGenerativePart file (ReadLoad (readAsDataURL_result file))
     = Resolved (image_part payload file)
     /\ Base64.decode payload = Some (file_bytes file))
  /\ (file_bytes file = [] ->
      fileToGenerativePart file (ReadLoad (readAsDataURL_result file))
      = Rejected decode_error).
Proof.
  intros Htype.
  assert (E : fileToGenerativePart file (ReadLoad (readAsDataURL_result file))
              = if Js.truthy (Base64.encode (file_bytes file))
                then Resolved (image_part (Base64.encode (file_bytes file)) file)
                else Rejected decode_error).
  { unfold fileToGenerativePart.
    rewrite split_second, (readAsDataURL_result_payload file Htype).
    cbn [option_map].
    now rewrite (up_to_absent _ (encode_without_comma (file_bytes file))). }
  split.
  - intros Hbytes. exists (Base64.encode (file_bytes file)).
    split; [|apply decode_encode].
    now rewrite E, (encode_truthy _ Hbytes).
  - intros Hbytes. rewrite E, Hbytes. reflexivity.
Qed.

Lemma encoder_round_trip_witness :
  exists payload,
    fileToGenerativePart sample_file (ReadLoad (readAsDataURL_result sample_file))
    = Resolved (image_part payload sample_file)
    /\ Base64.decode payload = Some [x89; x50; x4e; x47].
Proof.
  apply (proj1 (encoder_round_trip sample_file eq_refl)). discriminate.
Defined.

(** C8, as stated, fails for the empty file: its data URI has an empty
    payload, which the encoder's test on [base64Data] turns into a
    rejection, so no base64 string is produced. *)
Lemma encoder_round_trip_counterexample :
  readAsDataURL_result empty_file = lit "data:image/png;base64,"
  /\ fileToGenerativePart empty_file (ReadLoad (readAsDataURL_result empty_file))
     = Rejected decode_error
  /\ ~ (forall file : File,
          exists payload,
            fileToGenerativePart file (ReadLoad (readAsDataURL_result file))
            = Resolved (image_part payload file)
            /\ Base64.decode payload = Some (file_bytes file)).
Proof.
  repeat split.
  intros claim. destruct (claim empty_file) as [payload [Hresolved _]].
  discriminate Hresolved.
Qed.


(** * Further properties of the script *)

(** ** Shared facts *)

Lemma trimStart_white (s : jsstring) :
  forallb Js.is_white_space (Js.trimStart s) = forallb Js.is_white_space s.
Proof.
  induction s as [|c s IH]; [reflexivity|].
  cbn [Js.trimStart forallb].
  destruct (Js.is_white_space c) eqn:E; [exact IH|].
  cbn [forallb]. now rewrite E.
Qed.

Lemma trimStart_empty (s : jsstring) :
  Js.truthy (Js.trimStart s) = negb (forallb Js.is_white_space s).
Proof.
  induction s as [|c s IH]; [reflexivity|].
  cbn [Js.trimStart forallb].
  destruct (Js.is_white_space c); [exact IH|reflexivity].
Qed.

Lemma forallb_rev (f : char16 -> bool) (s : jsstring) :
  forallb f (rev s) = forallb f s.
Proof.
  induction s as [|c s IH]; [reflexivity|].
  cbn [rev forallb]. rewrite forallb_app, IH. cbn [forallb].
  now rewrite andb_true_r, andb_comm.
Qed.

Lemma truthy_rev (s : jsstring) : Js.truthy (rev s) = Js.truthy s.
Proof.
  destruct s as [|c s]; [reflexivity|].
  cbn [rev]. now destruct (rev s).
Qed.

Lemma trim_truthy (s : jsstring) :
  Js.truthy (Js.trim s) = negb (forallb Js.is_white_space s).
Proof.
  unfold Js.trim, Js.trimEnd.
  now rewrite truthy_rev, trimStart_empty, forallb_rev, trimStart_white.
Qed.

Lemma on_click_suspends (s : State) (file : File) :
  selectedFile s = Some file ->
  Js.truthy (Js.trim (promptInput_value s)) = true ->
  exists k, on_click s = (AwaitRead file k, busy_page s, [CallSetLoading true]).
Proof.
  intros Hsel Hprompt.
  unfold on_click, bind, get. rewrite Hsel, Hprompt. simpl.
  eexists; reflexivity.
Qed.

Lemma run_on_click_rejected (s : State) (env : Env) :
  (selectedFile s = None ->
   run on_click env s
   = (displayError (lit "Please upload an image first.") s,
      [CallDisplayError (lit "Please upload an image first.")]))
  /\ (forall file,
        selectedFile s = Some file ->
        Js.truthy (Js.trim (promptInput_value s)) = false ->
        run on_click env s
        = (displayError (lit "Please enter a prompt.") s,
           [CallDisplayError (lit "Please enter a prompt.")])).
Proof.
  split.
  - intros Hsel. unfold run, on_click, bind, get. now rewrite Hsel.
  - intros file Hsel Hprompt. unfold run, on_click, bind, get.
    now rewrite Hsel, Hprompt.
Qed.

(** ** Validation of the prompt *)

(** X1: with a file selected, the click handler goes on to the busy state
    and the file read exactly when the prompt holds a code unit that is not
    white space; a prompt made of white space only (of any kind [trim]
    strips) is answered with "Please enter a prompt.". *)
Theorem prompt_accepted_iff_not_blank (s : State) (file : File) :
  selectedFile s = Some file ->
  (forallb Js.is_white_space (promptInput_value s) = false ->
   exists k, on_click s = (AwaitRead file k, busy_page s, [CallSetLoading true]))
  /\ (forallb Js.is_white_space (promptInput_value s) = true ->
      on_click s
      = (Finished, displayError (lit "Please enter a prompt.") s,
         [CallDisplayError (lit "Please enter a prompt.")])).
Proof.
  intros Hsel. split; intros Hblank.
  - apply on_click_suspends; [assumption|].
    now rewrite trim_truthy, Hblank.
  - unfold on_click, bind, get. rewrite Hsel, trim_truthy, Hblank. reflexivity.
Qed.

Lemma prompt_accepted_iff_not_blank_witness :
  on_click (set_promptInput_value [9; 160; 8232; 12288; 65279] sample_state)
  = (Finished,
     displayError (lit "Please enter a prompt.")
       (set_promptInput_value [9; 160; 8232; 12288; 65279] sample_state),
     [CallDisplayError (lit "Please enter a prompt.")]).
Proof.
  exact (proj2 (prompt_accepted_iff_not_blank
                  (set_promptInput_value [9; 160; 8232; 12288; 65279] sample_state)
                  sample_file eq_refl) eq_refl).
Defined.

(** ** What the encoder resolves with *)

Lemma up_to_without_comma (s : jsstring) : has_comma (up_to Js.comma s) = false.
Proof.
  unfold has_comma. induction s as [|c s IH]; [reflexivity|].
  cbn [up_to]. destruct (c =? Js.comma) eqn:E; [reflexivity|].
  cbn [existsb]. now rewrite E.
Qed.

(** X3: whenever the promise of [fileToGenerativePart] is resolved, the
    reader had loaded, the part has no text, its media type is the file's
    own [type], and its data string is neither empty nor contains a comma. *)
Theorem encoder_resolves_with_payload
    (file : File) (outcome : ReadOutcome) (part : Part) :
  fileToGenerativePart file outcome = Resolved part ->
  exists result base64Data,
    outcome = ReadLoad result
    /\ part = {| inlineData := Some {| data := base64Data;
                                       mimeType := file_type file |};
                 text := None |}
    /\ base64Data <> []
    /\ has_comma base64Data = false.
Proof.
  destruct outcome as [result|ev]; [|discriminate].
  unfold fileToGenerativePart. rewrite split_second.
  destruct (after_first Js.comma result) as [tail|]; [|discriminate].
  cbn [option_map].
  destruct (Js.truthy (up_to Js.comma tail)) eqn:Htruthy; [|discriminate].
  intros H. inversion H. exists result, (up_to Js.comma tail).
  repeat split.
  - intros Hnil. rewrite Hnil in Htruthy. discriminate.
  - apply up_to_without_comma.
Qed.

Lemma encoder_resolves_with_payload_witness :
  exists result base64Data,
    ReadLoad (lit "data:image/png;base64,AAAA,BBBB") = ReadLoad result
    /\ image_part (lit "AAAA") sample_file
       = {| inlineData := Some {| data := base64Data;
                                  mimeType := file_type sample_file |};
            text := None |}
    /\ base64Data <> []
    /\ has_comma base64Data = false.
Proof.
  exact (encoder_resolves_with_payload sample_file
           (ReadLoad (lit "data:image/png;base64,AAAA,BBBB"))
           (image_part (lit "AAAA") sample_file) eq_refl).
Defined.

(** ** The calls that leave the script *)

(** X2: a submission that passes validation starts exactly one read, of the
    file that was selected when the button was clicked.  If the encoder
    resolves, exactly one request is sent, whatever the service answers: to
    the model "gemini-2.5-flash-image-preview", asking for image and text,
    with two parts in this order, the encoder's part and the trimmed prompt
    read at the click.  If the encoder rejects, no request is sent.  None of
    this depends on what happens to the page while the handler is
    suspended. *)
Theorem submission_external_calls (s : State) (env : Env) (file : File) :
  selectedFile s = Some file ->
  Js.truthy (Js.trim (promptInput_value s)) = true ->
  read_calls (snd (run on_click env s)) = [file]
  /\ (forall imagePart,
        fileToGenerativePart file (read_outcome env) = Resolved imagePart ->
        network_calls (snd (run on_click env s))
        = [ {| model := lit "gemini-2.5-flash-image-preview";
               contents_parts :=
                 [imagePart;
                  {| inlineData := None;
                     text := Some (Js.trim (promptInput_value s)) |}];
               config_responseModalities := [IMAGE; TEXT] |} ])
  /\ (forall reason,
        fileToGenerativePart file (read_outcome env) = Rejected reason ->
        network_calls (snd (run on_click env s)) = []).
Proof.
  intros Hsel Hprompt.
  rewrite (run_on_click_valid s env file Hsel Hprompt). cbv zeta.
  destruct (fileToGenerativePart file (read_outcome env)) as [part|error].
  - destruct (generate_outcome env) as [response|error];
      [destruct (first_inlineData (response_parts response))|];
      (split; [reflexivity|split; [|discriminate]]);
      intros imagePart H; inversion H; reflexivity.
  - split; [reflexivity|split; [discriminate|reflexivity]].
Qed.

Lemma submission_external_calls_witness :
  network_calls
    (snd (run on_click
            (quiet_env (ReadLoad (readAsDataURL_result sample_file))
                       (Rejected (ErrorObject (lit "Failed to fetch"))))
            sample_state))
  = [ {| model := lit "gemini-2.5-flash-image-preview";
         contents_parts :=
           [image_part (lit "iVBORw==") sample_file;
            {| inlineData := None; text := Some (lit "add trees") |}];
         config_responseModalities := [IMAGE; TEXT] |} ].
Proof.
  exact (proj1 (proj2
    (submission_external_calls sample_state
       (quiet_env (ReadLoad (readAsDataURL_result sample_file))
                  (Rejected (ErrorObject (lit "Failed to fetch"))))
       sample_file eq_refl eq_refl))
    (image_part (lit "iVBORw==") sample_file) eq_refl).
Defined.

(** ** Responses without parts *)

(** X4: only the first candidate of a response is looked at.  When the
    response has no candidate list, an empty one, or a first candidate
    without content or without a parts list, the submission ends with the
    "did not return an image" message and without entering [catch], even
    if a later candidate carries an image. *)
Theorem response_without_first_parts
    (s : State) (env : Env) (file : File) (imagePart : Part)
    (response : GenerateContentResponse) :
  selectedFile s = Some file ->
  Js.truthy (Js.trim (promptInput_value s)) = true ->
  fileToGenerativePart file (read_outcome env) = Resolved imagePart ->
  generate_outcome env = Resolved response ->
  candidates response = None
  \/ candidates response = Some []
  \/ (exists candidate others,
        candidates response = Some (candidate :: others)
        /\ (content candidate = None
            \/ content candidate = Some {| parts := None |}
            \/ content candidate = Some {| parts := Some [] |})) ->
  displayed_errors (snd (run on_click env s))
  = [lit "The model did not return an image. Please try a different prompt."]
  /\ caught_errors (snd (run on_click env s)) = []
  /\ resultImage_style_display (fst (run on_click env s)) = lit "none".
Proof.
  intros Hsel Hprompt Hread Hgen Hshape.
  assert (Hparts : response_parts response = []).
  { unfold response_parts.
    destruct Hshape as [->|[->|(candidate & others & -> & Hcontent)]];
      try reflexivity.
    destruct Hcontent as [->|[->| ->]]; reflexivity. }
  rewrite (run_on_click_valid s env file Hsel Hprompt). cbv zeta.
  rewrite Hread, Hgen, Hparts. cbn [first_inlineData fst snd].
  repeat split.
  destruct (setLoading_keeps_result false
              (displayError
                 (lit "The model did not return an image. Please try a different prompt.")
                 (during_generate env (during_read env (busy_page s)))))
    as (_ & _ & -> & _).
  apply displayError_text.
Qed.

Lemma response_without_first_parts_witness :
  displayed_errors
    (snd (run on_click
            (quiet_env
               (ReadLoad (readAsDataURL_result sample_file))
               (Resolved
                  {| candidates :=
                       Some [ {| content := None |};
                              {| content := Some {| parts := Some spec_example_parts |} |} ] |}))
            sample_state))
  = [lit "The model did not return an image. Please try a different prompt."].
Proof.
  refine (proj1 (response_without_first_parts sample_state
    (quiet_env
       (ReadLoad (readAsDataURL_result sample_file))
       (Resolved
          {| candidates :=
               Some [ {| content := None |};
                      {| content := Some {| parts := Some spec_example_parts |} |} ] |}))
    sample_file (image_part (lit "iVBORw==") sample_file) _
    eq_refl eq_refl eq_refl eq_refl _)).
  right; right.
  exists {| content := None |},
         [ {| content := Some {| parts := Some spec_example_parts |} |} ].
  split; [reflexivity|left; reflexivity].
Defined.

(** ** What a click leaves on the page *)

Lemma inputs_kept (s : State) :
  (forall b, inputs_of (setLoading b s) = inputs_of s)
  /\ (forall message, inputs_of (displayError message s) = inputs_of s)
  /\ (forall v, inputs_of (set_resultImage_src v s) = inputs_of s)
  /\ (forall v, inputs_of (set_resultImage_style_display v s) = inputs_of s)
  /\ (forall v, inputs_of (set_resultPlaceholder_style_display v s) = inputs_of s).
Proof.
  destruct s; repeat split; try reflexivity. intros []; reflexivity.
Qed.

Lemma inputs_busy_page (s : State) : inputs_of (busy_page s) = inputs_of s.
Proof.
  unfold busy_page.
  destruct (inputs_kept
              (set_resultPlaceholder_style_display (lit "none") (setLoading true s)))
    as (_ & _ & _ & -> & _).
  destruct (inputs_kept (setLoading true s)) as (_ & _ & _ & _ & ->).
  apply inputs_kept.
Qed.

Lemma inputs_after_failure (message : jsstring) (s : State) :
  inputs_of (setLoading false (displayError message s)) = inputs_of s.
Proof.
  destruct (inputs_kept (displayError message s)) as (-> & _).
  apply inputs_kept.
Qed.

Lemma inputs_after_image (src : jsstring) (s : State) :
  inputs_of (setLoading false
               (set_resultImage_style_display (lit "block")
                  (set_resultImage_src src s)))
  = inputs_of s.
Proof.
  destruct (inputs_kept (set_resultImage_style_display (lit "block")
                           (set_resultImage_src src s))) as (-> & _).
  destruct (inputs_kept (set_resultImage_src src s)) as (_ & _ & _ & -> & _).
  apply inputs_kept.
Qed.

Lemma run_on_click_inputs (s : State) (env : Env) :
  (forall t, during_read env t = t) ->
  (forall t, during_generate env t = t) ->
  inputs_of (fst (run on_click env s)) = inputs_of s.
Proof.
  intros Hread Hgen.
  destruct (selectedFile s) as [file|] eqn:Hsel.
  - destruct (Js.truthy (Js.trim (promptInput_value s))) eqn:Hprompt.
    + rewrite (run_on_click_valid s env file Hsel Hprompt). cbv zeta.
      rewrite ?Hgen, ?Hread.
      destruct (fileToGenerativePart file (read_outcome env)) as [part|error];
        [destruct (generate_outcome env) as [response|error];
         [destruct (first_inlineData (response_parts response))|]|];
        cbn [fst]; rewrite ?Hgen, ?Hread;
        rewrite ?inputs_after_failure, ?inputs_after_image;
        apply inputs_busy_page.
    + rewrite (proj2 (run_on_click_rejected s env) file Hsel Hprompt).
      apply inputs_kept.
  - rewrite (proj1 (run_on_click_rejected s env) Hsel). apply inputs_kept.
Qed.

(** X5: a click, whatever it leads to (a validation message, an image, a
    failure), leaves the user's inputs as they were when no other code runs
    in between: the selected file, the prompt text, the file list and the
    preview of the selection. *)
Theorem click_keeps_inputs (s : State) (env : Env) :
  (forall t, during_read env t = t) ->
  (forall t, during_generate env t = t) ->
  selectedFile (fst (run on_click env s)) = selectedFile s
  /\ promptInput_value (fst (run on_click env s)) = promptInput_value s
  /\ imageUpload_files (fst (run on_click env s)) = imageUpload_files s
  /\ imagePreview_src (fst (run on_click env s)) = imagePreview_src s
  /\ imagePreview_style_display (fst (run on_click env s))
     = imagePreview_style_display s
  /\ uploadPlaceholder_style_display (fst (run on_click env s))
     = uploadPlaceholder_style_display s.
Proof.
  intros Hread Hgen.
  pose proof (run_on_click_inputs s env Hread Hgen) as H.
  unfold inputs_of in H. inversion H. repeat split; reflexivity.
Qed.

Lemma click_keeps_inputs_witness :
  promptInput_value
    (fst (run on_click
            (quiet_env (ReadLoad (readAsDataURL_result sample_file))
                       (Resolved (response_with spec_example_parts)))
            sample_state))
  = lit "  add trees ".
Proof.
  exact (proj1 (proj2
    (click_keeps_inputs sample_state
       (quiet_env (ReadLoad (readAsDataURL_result sample_file))
                  (Resolved (response_with spec_example_parts)))
       (fun t => eq_refl) (fun t => eq_refl)))).
Defined.

(** X6: when a submission that passed validation has finished, the loader
    is hidden and the prompt input and the file input are enabled, and the
    submit button is enabled exactly when a file is selected at that
    moment.  When no other code ran in between, the button is enabled and
    the page passes validation again: the user can retry after any
    outcome. *)
Theorem controls_restored_after_submission
    (s : State) (env : Env) (file : File) :
  selectedFile s = Some file ->
  Js.truthy (Js.trim (promptInput_value s)) = true ->
  (loader_visible (fst (run on_click env s)) = false
   /\ promptInput_disabled (fst (run on_click env s)) = false
   /\ imageUpload_disabled (fst (run on_click env s)) = false
   /\ generateBtn_disabled (fst (run on_click env s))
      = match selectedFile (fst (run on_click env s)) with
        | Some _ => false
        | None => true
        end)
  /\ ((forall t, during_read env t = t) ->
      (forall t, during_generate env t = t) ->
      generateBtn_disabled (fst (run on_click env s)) = false
      /\ selectedFile (fst (run on_click env s)) = Some file
      /\ Js.truthy (Js.trim (promptInput_value (fst (run on_click env s)))) = true).
Proof.
  intros Hsel Hprompt.
  assert (Hfinal : exists mid, fst (run on_click env s) = setLoading false mid).
  { rewrite (run_on_click_valid s env file Hsel Hprompt). cbv zeta.
    destruct (fileToGenerativePart file (read_outcome env)) as [part|error];
      [destruct (generate_outcome env) as [response|error];
       [destruct (first_inlineData (response_parts response))|]|];
      cbn [fst]; eexists; reflexivity. }
  destruct Hfinal as [mid Hfinal].
  assert (Hcontrols :
    loader_visible (fst (run on_click env s)) = false
    /\ promptInput_disabled (fst (run on_click env s)) = false
    /\ imageUpload_disabled (fst (run on_click env s)) = false
    /\ generateBtn_disabled (fst (run on_click env s))
       = match selectedFile (fst (run on_click env s)) with
         | Some _ => false
         | None => true
         end).
  { rewrite Hfinal.
    destruct (setLoading_false_fields mid) as (Hl & Hp & Hi & Hg).
    repeat split; try assumption.
    rewrite Hg. destruct mid; reflexivity. }
  split; [exact Hcontrols|].
  intros Hread Hgen.
  pose proof (run_on_click_inputs s env Hread Hgen) as H.
  unfold inputs_of in H. inversion H as [[Hfile Hvalue Hfiles Hsrc Hdisp Hup]].
  destruct Hcontrols as (_ & _ & _ & Hbtn).
  rewrite Hbtn, Hfile, Hvalue, Hsel. repeat split. exact Hprompt.
Qed.

Lemma controls_restored_after_submission_witness :
  generateBtn_disabled
    (fst (run on_click
            (quiet_env (ReadError reader_error_event) (Rejected (OtherValue [])))
            sample_state))
  = false.
Proof.
  exact (proj1 (proj2
    (controls_restored_after_submission sample_state
       (quiet_env (ReadError reader_error_event) (Rejected (OtherValue [])))
       sample_file eq_refl eq_refl)
    (fun t => eq_refl) (fun t => eq_refl))).
Defined.

(** ** The result area *)

Lemma result_area_after_failure (message : jsstring) (s : State) :
  resultImage_style_display (setLoading false (displayError message s)) = lit "none"
  /\ resultPlaceholder_style_display (setLoading false (displayError message s))
     = lit "block"
  /\ resultPlaceholder_textContent (setLoading false (displayError message s))
     = lit "Error: " ++ message.
Proof. destruct s; repeat split. Qed.

Lemma result_area_after_image (src : jsstring) (s : State) :
  let final :=
    setLoading false
      (set_resultImage_style_display (lit "block")
         (set_resultImage_src src (busy_page s))) in
  resultImage_style_display final = lit "block"
  /\ resultPlaceholder_style_display final = lit "none"
  /\ resultImage_src final = src.
Proof. destruct s; repeat split. Qed.

(** X7: after a click, with no other code running in between, the result
    area shows one thing only.  Either the result image is displayed, the
    placeholder is hidden and [displayError] was not called; or the result
    image is hidden (a previous result included), the placeholder is
    displayed, [displayError] was called exactly once and the placeholder
    reads "Error: " followed by its message. *)
Theorem result_area_exclusive (s : State) (env : Env) :
  (forall t, during_read env t = t) ->
  (forall t, during_generate env t = t) ->
  (resultImage_style_display (fst (run on_click env s)) = lit "block"
   /\ resultPlaceholder_style_display (fst (run on_click env s)) = lit "none"
   /\ displayed_errors (snd (run on_click env s)) = [])
  \/ (resultImage_style_display (fst (run on_click env s)) = lit "none"
      /\ resultPlaceholder_style_display (fst (run on_click env s)) = lit "block"
      /\ exists message,
           displayed_errors (snd (run on_click env s)) = [message]
           /\ resultPlaceholder_textContent (fst (run on_click env s))
              = lit "Error: " ++ message).
Proof.
  intros Hread Hgen.
  destruct (selectedFile s) as [file|] eqn:Hsel.
  - destruct (Js.truthy (Js.trim (promptInput_value s))) eqn:Hprompt.
    + rewrite (run_on_click_valid s env file Hsel Hprompt). cbv zeta.
      rewrite ?Hgen, ?Hread.
      destruct (fileToGenerativePart file (read_outcome env)) as [part|error];
        [destruct (generate_outcome env) as [response|error];
         [destruct (first_inlineData (response_parts response)) as [blob|]|]|];
        cbn [fst snd].
      * left.
        destruct (result_area_after_image
                    (lit "data:" ++ mimeType blob ++ lit ";base64," ++ data blob) s)
          as (Hi & Hp & _).
        repeat split; assumption.
      * right.
        destruct (result_area_after_failure
                    (lit "The model did not return an image. Please try a different prompt.")
                    (busy_page s)) as (Hi & Hp & Ht).
        repeat split; try assumption. eexists; split; [reflexivity|exact Ht].
      * right.
        destruct (result_area_after_failure (errorMessage error) (busy_page s))
          as (Hi & Hp & Ht).
        repeat split; try assumption. eexists; split; [reflexivity|exact Ht].
      * right.
        destruct (result_area_after_failure (errorMessage error) (busy_page s))
          as (Hi & Hp & Ht).
        repeat split; try assumption. eexists; split; [reflexivity|exact Ht].
    + right. rewrite (proj2 (run_on_click_rejected s env) file Hsel Hprompt).
      cbn [fst snd].
      destruct (displayError_text (lit "Please enter a prompt.") s) as (Ht & Hp & Hi).
      repeat split; try assumption. eexists; split; [reflexivity|exact Ht].
  - right. rewrite (proj1 (run_on_click_rejected s env) Hsel). cbn [fst snd].
    destruct (displayError_text (lit "Please upload an image first.") s)
      as (Ht & Hp & Hi).
    repeat split; try assumption. eexists; split; [reflexivity|exact Ht].
Qed.

Lemma result_area_exclusive_witness :
  let final :=
    run on_click
      (quiet_env (ReadLoad (readAsDataURL_result sample_file))
                 (Resolved (response_with spec_example_parts)))
      sample_state in
  (resultImage_style_display (fst final) = lit "block"
   /\ resultPlaceholder_style_display (fst final) = lit "none"
   /\ displayed_errors (snd final) = [])
  \/ (resultImage_style_display (fst final) = lit "none"
      /\ resultPlaceholder_style_display (fst final) = lit "block"
      /\ exists message,
           displayed_errors (snd final) = [message]
           /\ resultPlaceholder_textContent (fst final) = lit "Error: " ++ message).
Proof.
  exact (result_area_exclusive sample_state
           (quiet_env (ReadLoad (readAsDataURL_result sample_file))
                      (Resolved (response_with spec_example_parts)))
           (fun t => eq_refl) (fun t => eq_refl)).
Defined.

(** ** Selecting a file *)

(** X8: a [change] event with a non-empty file list selects its first file
    at once, whatever was selected before and whatever else the list holds,
    and starts one read of that file.  When the read loads, the preview
    shows the read result, the upload placeholder is hidden and the submit
    button is enabled.  When the read fails, the selection stays replaced
    while the preview and the submit button are left as they were.  No
    request is sent and nothing is displayed as an error either way. *)
Theorem selection_takes_first_file
    (s : State) (env : Env) (file0 : File) (others : list File) :
  imageUpload_files s = Some (file0 :: others) ->
  (forall t, during_read env t = t) ->
  (exists k,
     on_change s = (AwaitRead file0 k, set_selectedFile (Some file0) s, []))
  /\ selectedFile (fst (run on_change env s)) = Some file0
  /\ snd (run on_change env s) = [CallReadAsDataURL file0]
  /\ promptInput_value (fst (run on_change env s)) = promptInput_value s
  /\ match read_outcome env with
     | ReadLoad result =>
         imagePreview_src (fst (run on_change env s)) = result
         /\ imagePreview_style_display (fst (run on_change env s)) = lit "block"
         /\ uploadPlaceholder_style_display (fst (run on_change env s)) = lit "none"
         /\ generateBtn_disabled (fst (run on_change env s)) = false
     | ReadError _ =>
         imagePreview_src (fst (run on_change env s)) = imagePreview_src s
         /\ imagePreview_style_display (fst (run on_change env s))
            = imagePreview_style_display s
         /\ uploadPlaceholder_style_display (fst (run on_change env s))
            = uploadPlaceholder_style_display s
         /\ generateBtn_disabled (fst (run on_change env s))
            = generateBtn_disabled s
     end.
Proof.
  intros Hfiles Hread.
  split.
  { unfold on_change, bind, get. rewrite Hfiles. simpl. eexists; reflexivity. }
  unfold run, on_change, bind, get. rewrite Hfiles.
  cbn [resume ret modify fst snd app]. rewrite Hread.
  destruct (read_outcome env) as [result|ev]; destruct s; repeat split.
Qed.

Lemma selection_takes_first_file_witness :
  selectedFile
    (fst (run on_change
            (quiet_env (ReadError reader_error_event) (Rejected (OtherValue [])))
            reselecting_state))
  = Some empty_file.
Proof.
  exact (proj1 (proj2 (selection_takes_first_file reselecting_state
    (quiet_env (ReadError reader_error_event) (Rejected (OtherValue [])))
    empty_file [comma_type_file] eq_refl (fun t => eq_refl)))).
Defined.

(** ** The selection over time *)

Lemma selected_of_inputs (a b : State) :
  inputs_of a = inputs_of b -> selectedFile a = selectedFile b.
Proof. unfold inputs_of. intros H. now inversion H. Qed.

(** X9: no handler of the script clears the selection.  If a file is
    selected, one is still selected after a [change] event and after a
    click have run to their end, for every file list, every prompt and
    every outcome of the read and of the remote call, provided the code
    that runs in between does not clear it either. *)
Theorem selection_never_cleared (s : State) (env : Env) :
  (forall t, selectedFile t <> None -> selectedFile (during_read env t) <> None) ->
  (forall t, selectedFile t <> None ->
             selectedFile (during_generate env t) <> None) ->
  selectedFile s <> None ->
  selectedFile (fst (run on_change env s)) <> None
  /\ selectedFile (fst (run on_click env s)) <> None.
Proof.
  intros Hread Hgen Hs. split.
  - unfold run, on_change, bind, get.
    destruct (imageUpload_files s) as [[|file0 others]|]; try exact Hs.
    cbn [resume ret modify fst snd app].
    assert (Hmid : selectedFile (during_read env (set_selectedFile (Some file0) s))
                   <> None)
      by (apply Hread; destruct s; discriminate).
    destruct (read_outcome env) as [result|ev]; cbn [fst]; [|exact Hmid].
    destruct (during_read env (set_selectedFile (Some file0) s)); exact Hmid.
  - destruct (selectedFile s) as [file|] eqn:Hsel; [|congruence].
    assert (Hbusy : selectedFile (during_read env (busy_page s)) <> None).
    { apply Hread. rewrite (selected_of_inputs _ _ (inputs_busy_page s)), Hsel.
      discriminate. }
    destruct (Js.truthy (Js.trim (promptInput_value s))) eqn:Hprompt.
    + rewrite (run_on_click_valid s env file Hsel Hprompt). cbv zeta.
      destruct (fileToGenerativePart file (read_outcome env)) as [part|error];
        [destruct (generate_outcome env) as [response|error];
         [destruct (first_inlineData (response_parts response))|]|];
        cbn [fst];
        first [ rewrite (selected_of_inputs _ _ (inputs_after_failure _ _))
              | rewrite (selected_of_inputs _ _ (inputs_after_image _ _)) ];
        auto.
    + rewrite (proj2 (run_on_click_rejected s env) file Hsel Hprompt). cbn [fst].
      destruct (inputs_kept s) as (_ & Hkept & _).
      rewrite (selected_of_inputs _ _ (Hkept _)), Hsel. discriminate.
Qed.

Lemma selection_never_cleared_witness :
  selectedFile
    (fst (run on_click
            (quiet_env (ReadLoad []) (Rejected (OtherValue [])))
            sample_state))
  <> None.
Proof.
  refine (proj2 (selection_never_cleared sample_state
    (quiet_env (ReadLoad []) (Rejected (OtherValue [])))
    (fun t H => H) (fun t H => H) _)).
  discriminate.
Defined.

(** ** A submission in flight *)

(** X10: the load callback of the preview read enables the submit button
    without looking at the busy state.  If it runs while a submission is in
    flight (after [setLoading(true)]), the button is enabled while the
    loader is shown and the other two controls are disabled. *)
Theorem preview_load_enables_submit_while_busy
    (s : State) (file0 : File) (others : list File) :
  imageUpload_files s = Some (file0 :: others) ->
  exists k,
    fst (fst (on_change s)) = AwaitRead file0 k
    /\ forall (result : jsstring) (t : State),
         loader_visible (snd (fst (k (ReadLoad result) (setLoading true t)))) = true
         /\ generateBtn_disabled (snd (fst (k (ReadLoad result) (setLoading true t))))
            = false
         /\ promptInput_disabled (snd (fst (k (ReadLoad result) (setLoading true t))))
            = true
         /\ imageUpload_disabled (snd (fst (k (ReadLoad result) (setLoading true t))))
            = true.
Proof.
  intros Hfiles. unfold on_change, bind, get. rewrite Hfiles.
  cbn [ret modify fst snd]. eexists. split; [reflexivity|].
  intros result t.
  destruct (setLoading_true_fields t) as (Hl & _ & Hp & Hi).
  revert Hl Hp Hi. unfold loader_visible.
  destruct (setLoading true t). cbn. auto.
Qed.

Lemma preview_load_enables_submit_while_busy_witness :
  exists k,
    fst (fst (on_change reselecting_state)) = AwaitRead empty_file k
    /\ forall (result : jsstring) (t : State),
         loader_visible (snd (fst (k (ReadLoad result) (setLoading true t)))) = true
         /\ generateBtn_disabled (snd (fst (k (ReadLoad result) (setLoading true t))))
            = false
         /\ promptInput_disabled (snd (fst (k (ReadLoad result) (setLoading true t))))
            = true
         /\ imageUpload_disabled (snd (fst (k (ReadLoad result) (setLoading true t))))
            = true.
Proof.
  exact (preview_load_enables_submit_while_busy reselecting_state
           empty_file [comma_type_file] eq_refl).
Defined.

(** X11: the click handler has no guard of its own against a submission in
    flight.  Run on the page as a valid submission left it when it
    suspended, it passes validation again, enters the busy state again and
    runs a second complete submission with its own read of the same
    file. *)
Theorem click_while_busy_starts_again (s : State) (env : Env) (file : File) :
  selectedFile s = Some file ->
  Js.truthy (Js.trim (promptInput_value s)) = true ->
  (exists k,
     on_click (busy_page s)
     = (AwaitRead file k, busy_page (busy_page s), [CallSetLoading true]))
  /\ read_calls (snd (run on_click env (busy_page s))) = [file]
  /\ loading_calls (snd (run on_click env (busy_page s))) = [true; false].
Proof.
  intros Hsel Hprompt.
  pose proof (inputs_busy_page s) as Hin.
  unfold inputs_of in Hin.
  inversion Hin as [[Hfile Hvalue Hfiles Hsrc Hdisp Hup]].
  assert (Hsel' : selectedFile (busy_page s) = Some file) by congruence.
  assert (Hprompt' : Js.truthy (Js.trim (promptInput_value (busy_page s))) = true)
    by congruence.
  split; [exact (on_click_suspends (busy_page s) file Hsel' Hprompt')|].
  rewrite (run_on_click_valid (busy_page s) env file Hsel' Hprompt'). cbv zeta.
  destruct (fileToGenerativePart file (read_outcome env)) as [part|error];
    [destruct (generate_outcome env) as [response|error];
     [destruct (first_inlineData (response_parts response))|]|];
    split; reflexivity.
Qed.

Lemma click_while_busy_starts_again_witness :
  read_calls
    (snd (run on_click
            (quiet_env (ReadLoad (readAsDataURL_result sample_file))
                       (Resolved (response_with spec_example_parts)))
            (busy_page sample_state)))
  = [sample_file].
Proof.
  exact (proj1 (proj2
    (click_while_busy_starts_again sample_state
       (quiet_env (ReadLoad (readAsDataURL_result sample_file))
                  (Resolved (response_with spec_example_parts)))
       sample_file eq_refl eq_refl))).
Defined.

(** ** From start-up to the request *)

Lemma default_prompt_kept_by_trim : Js.trim default_prompt = default_prompt.
Proof. vm_compute. reflexivity. Qed.

Lemma encoder_on_data_uri (file : File) :
  file_bytes file <> [] ->
  has_comma (file_type file) = false ->
  fileToGenerativePart file (ReadLoad (readAsDataURL_result file))
  = Resolved (image_part (Base64.encode (file_bytes file)) file).
Proof.
  intros Hbytes Htype. unfold fileToGenerativePart.
  rewrite split_second, (readAsDataURL_result_payload file Htype).
  cbn [option_map].
  rewrite (up_to_absent _ (encode_without_comma (file_bytes file))).
  now rewrite (encode_truthy _ Hbytes).
Qed.

Lemma selected_after_start (s : State) (env : Env)
    (file : File) (others : list File) :
  imageUpload_files s = Some (file :: others) ->
  (forall t, during_read env t = t) ->
  selectedFile (fst (run on_change env (initialized s))) = Some file
  /\ promptInput_value (fst (run on_change env (initialized s))) = default_prompt.
Proof.
  intros Hfiles Hread.
  assert (Hfiles' : imageUpload_files (initialized s) = Some (file :: others))
    by (destruct s; exact Hfiles).
  unfold run, on_change, bind, get. rewrite Hfiles'.
  cbn [resume ret modify fst snd app]. rewrite Hread.
  destruct (read_outcome env) as [result|ev]; destruct s; split; reflexivity.
Qed.

(** X12: start-up, selection and click together.  On a page where
    [initializeApp()] has run and the user has picked a file with at least
    one byte (and a media type without a comma), a click, with the prompt
    left as it is, sends exactly one request: its first part carries the
    file's media type and the base64 of the file's bytes, its second part
    the default prompt text.  The reader is taken to deliver the data URI
    of the file. *)
Theorem first_submission_request
    (s : State) (file : File) (others : list File)
    (answer : Settled GenerateContentResponse) :
  imageUpload_files s = Some (file :: others) ->
  file_bytes file <> [] ->
  has_comma (file_type file) = false ->
  let env := quiet_env (ReadLoad (readAsDataURL_result file)) answer in
  let page := fst (run on_change env (initialized s)) in
  network_calls (snd (run on_click env page))
  = [ {| model := lit "gemini-2.5-flash-image-preview";
         contents_parts :=
           [ {| inlineData := Some {| data := Base64.encode (file_bytes file);
                                      mimeType := file_type file |};
                text := None |};
             {| inlineData := None;
                text := Some (lit "Show the same highway after 10 years, with the planted trees fully grown, maintaining the same positions, perspective, and lighting") |} ];
         config_responseModalities := [IMAGE; TEXT] |} ]
  /\ Base64.decode (Base64.encode (file_bytes file)) = Some (file_bytes file)
  /\ generateBtn_disabled page = false.
Proof.
  intros Hfiles Hbytes Htype env page.
  destruct (selected_after_start s env file others Hfiles (fun t => eq_refl))
    as [Hsel Hvalue].
  fold page in Hsel, Hvalue.
  assert (Hprompt : Js.truthy (Js.trim (promptInput_value page)) = true)
    by (rewrite Hvalue, default_prompt_kept_by_trim; reflexivity).
  split; [|split; [apply decode_encode|]].
  - rewrite (run_on_click_valid page env file Hsel Hprompt). cbv zeta.
    change (read_outcome env) with (ReadLoad (readAsDataURL_result file)).
    rewrite (encoder_on_data_uri file Hbytes Htype).
    rewrite Hvalue, default_prompt_kept_by_trim.
    change (generate_outcome env) with answer.
    destruct answer as [response|error];
      [destruct (first_inlineData (response_parts response))|]; reflexivity.
  - unfold page, run, on_change, bind, get.
    assert (Hfiles' : imageUpload_files (initialized s) = Some (file :: others))
      by (destruct s; exact Hfiles).
    rewrite Hfiles'. destruct s; reflexivity.
Qed.

Lemma first_submission_request_witness :
  network_calls
    (snd (run on_click
            (quiet_env (ReadLoad (readAsDataURL_result sample_file))
                       (Rejected (OtherValue [])))
            (fst (run on_change
                    (quiet_env (ReadLoad (readAsDataURL_result sample_file))
                               (Rejected (OtherValue [])))
                    (initialized sample_state)))))
  = [request_of (image_part (lit "iVBORw==") sample_file) default_prompt].
Proof.
  refine (proj1
    (first_submission_request sample_state sample_file []
       (Rejected (OtherValue [])) eq_refl _ eq_refl)).
  discriminate.
Defined.
